(** * Plane project-management tools

    A shallow embedding of the seven tool functions of the repository
    (create/delete/list project, create/list/update issue, and the
    issue-code resolver), with the part of the Python runtime they rely on:
    text, decoded JSON values, [json.loads] / [json.dumps], the two regular
    expressions, exceptions, and the [requests] calls.

    Conventions of the model.
    - A Python [str] is a Rocq [string].  Case mapping ([upper], [title])
      and the character classes of the regular expressions are the ASCII
      ones; text outside ASCII is carried through unchanged as UTF-8.
    - A JSON real is kept as the exact decimal of its literal, together with
      the two range effects of binary64 that change control flow (underflow
      to zero, overflow to infinity).  Rounding of the mantissa to 53 bits
      is not modelled.
    - Interpreter resource limits (recursion depth, the digit limit of
      [int]) and asynchronous signals are not modelled.
    - The texts of the exceptions are those of CPython 3.11; as in
      requests 2.27 and later, a response body that is not JSON makes
      [response.json()] raise a [RequestException].
    - An HTTP call appends the request to a log and asks a [server], a
      function of the history and the request, for the reply. *)

From Stdlib Require Import String Ascii List ZArith Bool Lia DecimalString.
Import ListNotations.
Set Warnings "-register-all".

Local Open Scope string_scope.
Local Open Scope Z_scope.

(* ================================================================= *)
(** ** Text *)

Definition dquote : ascii := "034"%char.
Definition squote : ascii := "039"%char.
Definition backslash : ascii := "092"%char.
Definition newline : ascii := "010"%char.

Definition code (c : ascii) : Z := Z.of_N (N_of_ascii c).
Definition chr (z : Z) : ascii := ascii_of_N (Z.to_N z).

Definition in_range (lo hi : ascii) (c : ascii) : bool :=
  (code lo <=? code c) && (code c <=? code hi).

Definition is_upper (c : ascii) : bool := in_range "A" "Z" c.
Definition is_lower (c : ascii) : bool := in_range "a" "z" c.
(** [[A-Za-z]] *)
Definition is_letter (c : ascii) : bool := is_upper c || is_lower c.
(** [\d], on ASCII *)
Definition is_digit (c : ascii) : bool := in_range "0" "9" c.
(** [[0-9a-f]] *)
Definition is_lower_hex (c : ascii) : bool := is_digit c || in_range "a" "f" c.

Definition upper_char (c : ascii) : ascii :=
  if is_lower c then chr (code c - 32) else c.
Definition lower_char (c : ascii) : ascii :=
  if is_upper c then chr (code c + 32) else c.

Fixpoint map_string (f : ascii -> ascii) (s : string) : string :=
  match s with
  | EmptyString => EmptyString
  | String c s' => String (f c) (map_string f s')
  end.

(** [str.upper] *)
Definition upper (s : string) : string := map_string upper_char s.

(** [str.title]: a cased character is upper-cased when the character before
    it is not cased, and lower-cased otherwise. *)
Fixpoint title_from (previous_is_cased : bool) (s : string) : string :=
  match s with
  | EmptyString => EmptyString
  | String c s' =>
      if is_letter c
      then String (if previous_is_cased then lower_char c else upper_char c)
                  (title_from true s')
      else String c (title_from false s')
  end.
Definition title (s : string) : string := title_from false s.

(** Source texts of JSON documents are written with single quotes in this
    file; [q] turns them into the double quotes JSON requires. *)
Definition q (s : string) : string :=
  map_string (fun c => if Ascii.eqb c squote then dquote else c) s.

Definition str1 (c : ascii) : string := String c EmptyString.

Definition all_chars (p : ascii -> bool) (s : string) : bool :=
  forallb p (list_ascii_of_string s).

(** Text within ASCII. *)
Definition is_ascii (c : ascii) : bool := code c <? 128.

Definition nonempty (s : string) : bool :=
  match s with EmptyString => false | _ => true end.

(** [s.startswith(p)] *)
Fixpoint starts_with (p s : string) : bool :=
  match p with
  | EmptyString => true
  | String a p' =>
      match s with
      | String b s' => Ascii.eqb a b && starts_with p' s'
      | EmptyString => false
      end
  end.

(** The longest prefix whose characters satisfy [p], and the rest. *)
Fixpoint span (p : ascii -> bool) (s : string) : string * string :=
  match s with
  | EmptyString => (EmptyString, EmptyString)
  | String c s' =>
      if p c then let (a, b) := span p s' in (String c a, b)
      else (EmptyString, s)
  end.

(** The rest of [s] after its first character, when that is [c]. *)
Definition take_char (c : ascii) (s : string) : option string :=
  match s with
  | String c' r => if Ascii.eqb c c' then Some r else None
  | EmptyString => None
  end.

(** [needle in hay] on two strings *)
Fixpoint is_substring (needle hay : string) : bool :=
  starts_with needle hay ||
  match hay with
  | EmptyString => false
  | String _ hay' => is_substring needle hay'
  end.

Definition string_of_Z (z : Z) : string := NilZero.string_of_int (Z.to_int z).

(** [int(s)] on a non-empty run of decimal digits *)
Definition int_of_digits (s : string) : Z :=
  fold_left (fun acc c => 10 * acc + (code c - code "0"))
            (list_ascii_of_string s) 0.

Definition hex_digit (n : Z) : ascii :=
  if n <? 10 then chr (code "0" + n) else chr (code "a" + n - 10).

(** Two and four lower-case hexadecimal digits. *)
Definition hex2 (n : Z) : string :=
  String (hex_digit (n / 16 mod 16)) (str1 (hex_digit (n mod 16))).
Definition hex4 (n : Z) : string :=
  String (hex_digit (n / 4096 mod 16))
    (String (hex_digit (n / 256 mod 16)) (hex2 n)).

Fixpoint repeat_string (n : nat) (s : string) : string :=
  match n with
  | O => EmptyString
  | S n' => s ++ repeat_string n' s
  end.

(* ================================================================= *)
(** ** Decoded JSON values *)

(** A JSON real: not-a-number, an infinity, or [(-1)^negative * digits *
    10^exp10] as written in the literal. *)
Inductive pyfloat : Type :=
| FNaN
| FInf (negative : bool)
| FDec (negative : bool) (digits : Z) (exp10 : Z).

(** What [json.loads] builds: [None], [bool], [int], [float], [str], [list]
    and [dict] (insertion-ordered, keys unique). *)
Inductive json : Type :=
| JNull
| JBool (b : bool)
| JInt (z : Z)
| JFloat (f : pyfloat)
| JString (s : string)
| JArray (items : list json)
| JObject (entries : list (string * json)).

Module Dict.
Section WithValue.
Context {V : Type}.

(** [d.get(k)] *)
Fixpoint get (k : string) (d : list (string * V)) : option V :=
  match d with
  | [] => None
  | (k', v) :: d' => if String.eqb k k' then Some v else get k d'
  end.

(** [k in d] *)
Definition mem (k : string) (d : list (string * V)) : bool :=
  match get k d with Some _ => true | None => false end.

(** [d[k] = v]: an existing key keeps its position. *)
Fixpoint set (k : string) (v : V) (d : list (string * V))
  : list (string * V) :=
  match d with
  | [] => [(k, v)]
  | (k', v') :: d' =>
      if String.eqb k k' then (k', v) :: d' else (k', v') :: set k v d'
  end.

(** [d.pop(k)] without its result *)
Fixpoint remove (k : string) (d : list (string * V))
  : list (string * V) :=
  match d with
  | [] => []
  | (k', v') :: d' =>
      if String.eqb k k' then remove k d' else (k', v') :: remove k d'
  end.

Definition keys (d : list (string * V)) : list string := map fst d.
End WithValue.
End Dict.

(** *** Reals *)

(** A literal of magnitude at most [2^-1075] rounds to zero. *)
Definition rounds_to_zero (digits exp10 : Z) : bool :=
  (digits =? 0) ||
  ((exp10 <? 0) && (digits * 2 ^ 1075 <=? 10 ^ (- exp10))).

(** A literal of magnitude at least [2^1024 - 2^970] rounds to infinity. *)
Definition rounds_to_inf (digits exp10 : Z) : bool :=
  if exp10 <? 0
  then (2 ^ 1024 - 2 ^ 970) * 10 ^ (- exp10) <=? digits
  else 2 ^ 1024 - 2 ^ 970 <=? digits * 10 ^ exp10.

Definition float_norm (f : pyfloat) : pyfloat :=
  match f with
  | FDec neg m e =>
      if rounds_to_zero m e then FDec neg 0 0
      else if rounds_to_inf m e then FInf neg
      else f
  | _ => f
  end.

(** Exact numeric values, for comparisons across [bool], [int] and
    [float]. *)
Inductive numval : Type :=
| VNaN
| VInf (negative : bool)
| VFin (mantissa : Z) (exp10 : Z).

Definition numval_of_float (f : pyfloat) : numval :=
  match float_norm f with
  | FNaN => VNaN
  | FInf neg => VInf neg
  | FDec neg m e => VFin (if neg then - m else m) e
  end.

Definition numval_of (v : json) : option numval :=
  match v with
  | JBool b => Some (VFin (if b then 1 else 0) 0)
  | JInt z => Some (VFin z 0)
  | JFloat f => Some (numval_of_float f)
  | _ => None
  end.

Definition numval_eqb (a b : numval) : bool :=
  match a, b with
  | VInf n1, VInf n2 => Bool.eqb n1 n2
  | VFin m1 e1, VFin m2 e2 =>
      let e := Z.min e1 e2 in
      m1 * 10 ^ (e1 - e) =? m2 * 10 ^ (e2 - e)
  | _, _ => false
  end.

(** Digits without trailing zeros, and the number of zeros removed. *)
Fixpoint strip_zeros (fuel : nat) (m : Z) (removed : Z) : Z * Z :=
  match fuel with
  | O => (m, removed)
  | S fuel' =>
      if (m =? 0) || negb (m mod 10 =? 0) then (m, removed)
      else strip_zeros fuel' (m / 10) (removed + 1)
  end.

Definition string_take (n : nat) (s : string) : string := substring 0 n s.
Definition string_drop (n : nat) (s : string) : string :=
  substring n (String.length s - n) s.

(** [float.__repr__]: positional notation when the decimal point falls in
    [-4 < decpt <= 16], exponent notation otherwise. *)
Definition float_repr (f : pyfloat) : string :=
  match float_norm f with
  | FNaN => "nan"
  | FInf neg => if neg then "-inf" else "inf"
  | FDec neg m e =>
      let sign := if neg then "-" else "" in
      if m =? 0 then sign ++ "0.0" else
      let (m', z) := strip_zeros (String.length (string_of_Z m)) m 0 in
      let ds := string_of_Z m' in
      let n := Z.of_nat (String.length ds) in
      let decpt := n + e + z in
      if (-4 <? decpt) && (decpt <=? 16) then
        if decpt <=? 0 then
          sign ++ "0." ++ repeat_string (Z.to_nat (- decpt)) "0" ++ ds
        else if n <=? decpt then
          sign ++ ds ++ repeat_string (Z.to_nat (decpt - n)) "0" ++ ".0"
        else
          sign ++ string_take (Z.to_nat decpt) ds ++ "."
               ++ string_drop (Z.to_nat decpt) ds
      else
        let x := decpt - 1 in
        let xs := string_of_Z (Z.abs x) in
        sign ++ string_take 1 ds
             ++ (if n =? 1 then "" else "." ++ string_drop 1 ds)
             ++ "e" ++ (if x <? 0 then "-" else "+")
             ++ (if Z.abs x <? 10 then "0" ++ xs else xs)
  end.

(** *** Truth value, equality, [repr] and [str] *)

(** [bool(v)] *)
Definition truthy (v : json) : bool :=
  match v with
  | JNull => false
  | JBool b => b
  | JInt z => negb (z =? 0)
  | JFloat f =>
      match float_norm f with
      | FDec _ m _ => negb (m =? 0)
      | _ => true
      end
  | JString s => nonempty s
  | JArray l => match l with [] => false | _ => true end
  | JObject d => match d with [] => false | _ => true end
  end.

(** [a == b] *)
Fixpoint py_eq (a b : json) {struct a} : bool :=
  match a, b with
  | JNull, JNull => true
  | JString s, JString t => String.eqb s t
  | JArray l, JArray m =>
      (fix go (l m : list json) {struct l} : bool :=
         match l, m with
         | [], [] => true
         | x :: l', y :: m' => py_eq x y && go l' m'
         | _, _ => false
         end) l m
  | JObject d, JObject d' =>
      (length d =? length d')%nat &&
      (fix go (d : list (string * json)) : bool :=
         match d with
         | [] => true
         | (k, v) :: rest =>
             match Dict.get k d' with
             | Some w => py_eq v w
             | None => false
             end && go rest
         end) d
  | _, _ =>
      match numval_of a, numval_of b with
      | Some x, Some y => numval_eqb x y
      | _, _ => false
      end
  end.

(** [repr] of a [str]: single quotes unless the text has a single quote and
    no double quote. *)
Definition str_repr (s : string) : string :=
  let has c := existsb (Ascii.eqb c) (list_ascii_of_string s) in
  let quote := if has squote && negb (has dquote) then dquote else squote in
  let esc (c : ascii) : string :=
    if Ascii.eqb c backslash then "\\"
    else if Ascii.eqb c quote then String backslash (str1 c)
    else if Ascii.eqb c newline then "\n"
    else if Ascii.eqb c "013" then "\r"
    else if Ascii.eqb c "009" then "\t"
    else if (code c <? 32) || (code c =? 127) then "\x" ++ hex2 (code c)
    else str1 c in
  str1 quote ++ String.concat "" (map esc (list_ascii_of_string s))
             ++ str1 quote.

Fixpoint py_repr (v : json) : string :=
  match v with
  | JNull => "None"
  | JBool b => if b then "True" else "False"
  | JInt z => string_of_Z z
  | JFloat f => float_repr f
  | JString s => str_repr s
  | JArray l => "[" ++ String.concat ", " (map py_repr l) ++ "]"
  | JObject d =>
      "{" ++ String.concat ", "
               (map (fun kv => str_repr (fst kv) ++ ": " ++ py_repr (snd kv)) d)
          ++ "}"
  end.

(** [str(v)], what an f-string interpolates *)
Definition py_str (v : json) : string :=
  match v with
  | JString s => s
  | _ => py_repr v
  end.

Definition type_name (v : json) : string :=
  match v with
  | JNull => "NoneType"
  | JBool _ => "bool"
  | JInt _ => "int"
  | JFloat _ => "float"
  | JString _ => "str"
  | JArray _ => "list"
  | JObject _ => "dict"
  end.

(* ================================================================= *)
(** ** JSON text: [json.dumps] and [json.loads] *)

Definition is_continuation (c : ascii) : bool :=
  (128 <=? code c) && (code c <? 192).

(** [\uXXXX] for a code point, as a surrogate pair above the basic plane. *)
Definition u_escape (cp : Z) : string :=
  if cp <? 65536 then "\u" ++ hex4 cp
  else "\u" ++ hex4 (55296 + (cp - 65536) / 1024)
            ++ "\u" ++ hex4 (56320 + (cp - 65536) mod 1024).

Definition escape_char (c : ascii) : string :=
  if Ascii.eqb c dquote then String backslash (str1 dquote)
  else if Ascii.eqb c backslash then "\\"
  else if Ascii.eqb c newline then "\n"
  else if Ascii.eqb c "013" then "\r"
  else if Ascii.eqb c "009" then "\t"
  else if Ascii.eqb c "008" then "\b"
  else if Ascii.eqb c "012" then "\f"
  else if (code c <? 32) || (126 <? code c) then u_escape (code c)
  else str1 c.

(** The body of an encoded string with [ensure_ascii]: every character
    outside [' '..'~'] is escaped; a well-formed UTF-8 sequence is one
    character. *)
Fixpoint escape_ascii (s : string) : string :=
  match s with
  | EmptyString => EmptyString
  | String c s1 =>
      let b := code c in
      let single := escape_char c ++ escape_ascii s1 in
      if b <? 192 then single else
      match s1 with
      | String c1 s2 =>
          if negb (is_continuation c1) then single
          else if b <? 224 then
            u_escape ((b - 192) * 64 + (code c1 - 128)) ++ escape_ascii s2
          else
          match s2 with
          | String c2 s3 =>
              if negb (is_continuation c2) then single
              else if b <? 240 then
                u_escape ((b - 224) * 4096 + (code c1 - 128) * 64
                          + (code c2 - 128)) ++ escape_ascii s3
              else
              match s3 with
              | String c3 s4 =>
                  if is_continuation c3 && (b <? 248) then
                    u_escape ((b - 240) * 262144 + (code c1 - 128) * 4096
                              + (code c2 - 128) * 64 + (code c3 - 128))
                      ++ escape_ascii s4
                  else single
              | EmptyString => single
              end
          | EmptyString => single
          end
      | EmptyString => single
      end
  end.

Definition encode_string (s : string) : string :=
  str1 dquote ++ escape_ascii s ++ str1 dquote.

(** [json.dumps(v)] with the default separators. *)
Fixpoint json_dumps (v : json) : string :=
  match v with
  | JNull => "null"
  | JBool b => if b then "true" else "false"
  | JInt z => string_of_Z z
  | JFloat f =>
      match float_norm f with
      | FNaN => "NaN"
      | FInf neg => if neg then "-Infinity" else "Infinity"
      | FDec _ _ _ => float_repr f
      end
  | JString s => encode_string s
  | JArray l => "[" ++ String.concat ", " (map json_dumps l) ++ "]"
  | JObject d =>
      "{" ++ String.concat ", "
               (map (fun kv => encode_string (fst kv) ++ ": "
                               ++ json_dumps (snd kv)) d)
          ++ "}"
  end.

(** The decoder. *)

Definition is_ws (c : ascii) : bool :=
  Ascii.eqb c " " || Ascii.eqb c "009" || Ascii.eqb c newline
  || Ascii.eqb c "013".

Fixpoint skip_ws (s : string) : string :=
  match s with
  | String c s' => if is_ws c then skip_ws s' else s
  | EmptyString => EmptyString
  end.

Fixpoint strip_prefix (p s : string) : option string :=
  match p, s with
  | EmptyString, _ => Some s
  | String a p', String b s' =>
      if Ascii.eqb a b then strip_prefix p' s' else None
  | String _ _, EmptyString => None
  end.

Definition hex_value (c : ascii) : option Z :=
  if is_digit c then Some (code c - code "0")
  else if in_range "a" "f" c then Some (code c - code "a" + 10)
  else if in_range "A" "F" c then Some (code c - code "A" + 10)
  else None.

Definition hex4_value (a b c d : ascii) : option Z :=
  match hex_value a, hex_value b, hex_value c, hex_value d with
  | Some x, Some y, Some z, Some w => Some (((x * 16 + y) * 16 + z) * 16 + w)
  | _, _, _, _ => None
  end.

(** UTF-8 bytes of a code point (a lone surrogate is kept, in three
    bytes). *)
Definition utf8_encode (cp : Z) : string :=
  if cp <? 128 then str1 (chr cp)
  else if cp <? 2048 then
    String (chr (192 + cp / 64)) (str1 (chr (128 + cp mod 64)))
  else if cp <? 65536 then
    String (chr (224 + cp / 4096))
      (String (chr (128 + cp / 64 mod 64)) (str1 (chr (128 + cp mod 64))))
  else
    String (chr (240 + cp / 262144))
      (String (chr (128 + cp / 4096 mod 64))
         (String (chr (128 + cp / 64 mod 64)) (str1 (chr (128 + cp mod 64))))).

Definition simple_escape (c : ascii) : option ascii :=
  if Ascii.eqb c dquote then Some dquote
  else if Ascii.eqb c backslash then Some backslash
  else if Ascii.eqb c "/" then Some "/"%char
  else if Ascii.eqb c "b" then Some "008"%char
  else if Ascii.eqb c "f" then Some "012"%char
  else if Ascii.eqb c "n" then Some newline
  else if Ascii.eqb c "r" then Some "013"%char
  else if Ascii.eqb c "t" then Some "009"%char
  else None.

Definition prepend (t : string) (r : option (string * string))
  : option (string * string) :=
  match r with
  | Some (u, rest) => Some (t ++ u, rest)
  | None => None
  end.

(** The low surrogate of a pair, when the text continues with its escape. *)
Definition low_surrogate (s : string) : option Z :=
  match s with
  | String b (String u (String g1 (String g2 (String g3 (String g4 _))))) =>
      if Ascii.eqb b backslash && Ascii.eqb u "u" then
        match hex4_value g1 g2 g3 g4 with
        | Some lo => if (56320 <=? lo) && (lo <=? 57343) then Some lo else None
        | None => None
        end
      else None
  | _ => None
  end.

(** A string literal after its opening quote (strict mode: a raw control
    character ends the parse): the decoded text and what follows the closing
    quote. *)
Fixpoint scan_string (s : string) : option (string * string) :=
  match s with
  | EmptyString => None
  | String c s1 =>
      if Ascii.eqb c dquote then Some (EmptyString, s1)
      else if Ascii.eqb c backslash then
        match s1 with
        | String e s2 =>
            if Ascii.eqb e "u" then
              match s2 with
              | String h1 (String h2 (String h3 (String h4 s6))) =>
                  match hex4_value h1 h2 h3 h4 with
                  | Some hi =>
                      match
                        (if (55296 <=? hi) && (hi <=? 56319)
                         then low_surrogate s6 else None), s6
                      with
                      | Some lo,
                        String _ (String _ (String _ (String _
                          (String _ (String _ s12))))) =>
                          prepend
                            (utf8_encode
                               (65536 + (hi - 55296) * 1024 + (lo - 56320)))
                            (scan_string s12)
                      | _, _ => prepend (utf8_encode hi) (scan_string s6)
                      end
                  | None => None
                  end
              | _ => None
              end
            else
              match simple_escape e with
              | Some ch => prepend (str1 ch) (scan_string s2)
              | None => None
              end
        | EmptyString => None
        end
      else if code c <? 32 then None
      else prepend (str1 c) (scan_string s1)
  end.

(** [\.\d+] or [[eE][-+]?\d+]: an optional part is taken whole or not at
    all. *)
Definition scan_fraction (s : string) : string * string :=
  match take_char "." s with
  | Some r =>
      let (ds, r') := span is_digit r in
      if nonempty ds then (ds, r') else (EmptyString, s)
  | None => (EmptyString, s)
  end.

Definition scan_exponent (s : string) : option Z * string :=
  match s with
  | String c r =>
      if Ascii.eqb c "e" || Ascii.eqb c "E" then
        let '(neg, r1) :=
          match take_char "-" r with
          | Some r1 => (true, r1)
          | None =>
              match take_char "+" r with
              | Some r1 => (false, r1)
              | None => (false, r)
              end
          end in
        let (ds, r2) := span is_digit r1 in
        if nonempty ds
        then (Some (if neg then - int_of_digits ds else int_of_digits ds), r2)
        else (None, s)
      else (None, s)
  | EmptyString => (None, s)
  end.

(** A number: an optional minus sign, then [0] or a digit run that does not
    start with [0], then an optional fraction and an optional exponent.  The
    result is an [int] when there is neither fraction nor exponent, a
    [float] otherwise. *)
Definition scan_number (s : string) : option (json * string) :=
  let '(neg, s1) :=
    match take_char "-" s with
    | Some r => (true, r)
    | None => (false, s)
    end in
  let int_part : option (string * string) :=
    match take_char "0" s1 with
    | Some r => Some ("0", r)
    | None => let (ds, r) := span is_digit s1 in
              if nonempty ds then Some (ds, r) else None
    end in
  match int_part with
  | None => None
  | Some (ip, s2) =>
      let (frac, s3) := scan_fraction s2 in
      let (ex, s4) := scan_exponent s3 in
      if nonempty frac || (match ex with Some _ => true | None => false end)
      then
        let e := match ex with Some e => e | None => 0 end in
        Some (JFloat (float_norm
                        (FDec neg (int_of_digits (ip ++ frac))
                              (e - Z.of_nat (String.length frac)))), s4)
      else
        Some (JInt (if neg then - int_of_digits ip else int_of_digits ip), s4)
  end.

Inductive parsed (A : Type) : Type :=
| Parsed (a : A) (rest : string)
| Invalid
| OutOfFuel.
Arguments Parsed {A} a rest.
Arguments Invalid {A}.
Arguments OutOfFuel {A}.

Definition scan_constant (s : string) : parsed json :=
  match strip_prefix "null" s with Some r => Parsed JNull r | None =>
  match strip_prefix "true" s with Some r => Parsed (JBool true) r | None =>
  match strip_prefix "false" s with Some r => Parsed (JBool false) r | None =>
  match scan_number s with Some (v, r) => Parsed v r | None =>
  match strip_prefix "NaN" s with Some r => Parsed (JFloat FNaN) r | None =>
  match strip_prefix "Infinity" s with
  | Some r => Parsed (JFloat (FInf false)) r | None =>
  match strip_prefix "-Infinity" s with
  | Some r => Parsed (JFloat (FInf true)) r | None => Invalid
  end end end end end end end.

(** One value at the head of the text.  The callers skip white space; an
    object with a repeated name keeps the last value at the first
    position. *)
Fixpoint parse_value (fuel : nat) (s : string) : parsed json :=
  match fuel with
  | O => OutOfFuel
  | S n =>
      match s with
      | EmptyString => Invalid
      | String c r =>
          if Ascii.eqb c dquote then
            match scan_string r with
            | Some (t, r') => Parsed (JString t) r'
            | None => Invalid
            end
          else if Ascii.eqb c "{" then
            match take_char "}" (skip_ws r) with
            | Some r' => Parsed (JObject []) r'
            | None => parse_members n [] (skip_ws r)
            end
          else if Ascii.eqb c "[" then
            match take_char "]" (skip_ws r) with
            | Some r' => Parsed (JArray []) r'
            | None => parse_elements n [] (skip_ws r)
            end
          else scan_constant s
      end
  end
with parse_elements (fuel : nat) (acc : list json) (s : string)
  : parsed json :=
  match fuel with
  | O => OutOfFuel
  | S n =>
      match parse_value n s with
      | Parsed v r =>
          match take_char "," (skip_ws r) with
          | Some r' => parse_elements n (v :: acc) (skip_ws r')
          | None =>
              match take_char "]" (skip_ws r) with
              | Some r' => Parsed (JArray (rev (v :: acc))) r'
              | None => Invalid
              end
          end
      | Invalid => Invalid
      | OutOfFuel => OutOfFuel
      end
  end
with parse_members (fuel : nat) (acc : list (string * json)) (s : string)
  : parsed json :=
  match fuel with
  | O => OutOfFuel
  | S n =>
      match take_char dquote s with
      | Some r =>
          match scan_string r with
          | Some (k, r1) =>
              match take_char ":" (skip_ws r1) with
              | Some r2 =>
                  match parse_value n (skip_ws r2) with
                  | Parsed v r3 =>
                      match take_char "," (skip_ws r3) with
                      | Some r4 =>
                          parse_members n (Dict.set k v acc) (skip_ws r4)
                      | None =>
                          match take_char "}" (skip_ws r3) with
                          | Some r4 => Parsed (JObject (Dict.set k v acc)) r4
                          | None => Invalid
                          end
                      end
                  | Invalid => Invalid
                  | OutOfFuel => OutOfFuel
                  end
              | None => Invalid
              end
          | None => Invalid
          end
      | None => Invalid
      end
  end.

(** [json.loads(s)]: [None] stands for [JSONDecodeError].  The fuel is
    never exhausted (lemma [json_loads_fuel]). *)
Definition json_loads_fuel_of (s : string) : nat := 2 * String.length s + 1.

Definition json_loads (s : string) : option json :=
  match parse_value (json_loads_fuel_of s) (skip_ws s) with
  | Parsed v r =>
      match skip_ws r with
      | EmptyString => Some v
      | String _ _ => None
      end
  | Invalid | OutOfFuel => None
  end.

(* ================================================================= *)
(** ** The two regular expressions *)

(** [re.match(r"([A-Za-z]+)-(\d+)", s)]: groups 1 and 2 of a match at the
    start of [s].  Both repetitions are greedy and each is followed by a
    character outside its class, so giving characters back never helps: the
    letters are the longest letter run, the digits the longest digit run
    after the hyphen.  Nothing anchors the end of the text. *)
Definition match_issue_code (s : string) : option (string * string) :=
  let (letters, r) := span is_letter s in
  match r with
  | String c r' =>
      if Ascii.eqb c "-" then
        let (digits, _) := span is_digit r' in
        if nonempty letters && nonempty digits
        then Some (letters, digits) else None
      else None
  | EmptyString => None
  end.

(** [n] characters of a class, then the rest. *)
Fixpoint take_class (p : ascii -> bool) (n : nat) (s : string)
  : option string :=
  match n with
  | O => Some s
  | S n' =>
      match s with
      | String c r => if p c then take_class p n' r else None
      | EmptyString => None
      end
  end.

(** [$] without [re.MULTILINE]: the end of the text, or the position just
    before a newline that ends the text. *)
Definition at_dollar (s : string) : bool :=
  match s with
  | EmptyString => true
  | String c EmptyString => Ascii.eqb c newline
  | _ => false
  end.

Definition and_then {A B} (o : option A) (k : A -> option B) : option B :=
  match o with Some a => k a | None => None end.

(** [re.match(r"^[0-9a-f]{8}-[0-9a-f]{4}-[0-9a-f]{4}-[0-9a-f]{4}-[0-9a-f]{12}$", s)] *)
Definition match_uuid (s : string) : bool :=
  match
    and_then (take_class is_lower_hex 8 s) (fun r =>
    and_then (take_char "-" r) (fun r =>
    and_then (take_class is_lower_hex 4 r) (fun r =>
    and_then (take_char "-" r) (fun r =>
    and_then (take_class is_lower_hex 4 r) (fun r =>
    and_then (take_char "-" r) (fun r =>
    and_then (take_class is_lower_hex 4 r) (fun r =>
    and_then (take_char "-" r) (fun r =>
    take_class is_lower_hex 12 r))))))))
  with
  | Some r => at_dollar r
  | None => false
  end.

(* ================================================================= *)
(** ** Exceptions *)

Inductive exn_class : Type :=
| KeyError
| TypeError
| AttributeError
| TransportError        (** any exception [requests] raises for a call *)
| HTTPError             (** [raise_for_status] *)
| ResponseDecodeError.  (** [requests.exceptions.JSONDecodeError] *)

(** The subclasses of [requests.RequestException]. *)
Definition is_request_exception (c : exn_class) : bool :=
  match c with
  | TransportError | HTTPError | ResponseDecodeError => true
  | KeyError | TypeError | AttributeError => false
  end.

(** An exception with [str(e)]. *)
Inductive exn : Type := Exn (c : exn_class) (msg : string).

Inductive outcome (A : Type) : Type :=
| Ok (a : A)
| Raise (e : exn).
Arguments Ok {A} a.
Arguments Raise {A} e.

Definition outcome_bind {A B} (o : outcome A) (k : A -> outcome B)
  : outcome B :=
  match o with
  | Ok a => k a
  | Raise e => Raise e
  end.

Notation "'let?' x ':=' o 'in' k" := (outcome_bind o (fun x => k))
  (at level 10, x name, o at level 100, k at level 200).

(** *** Operations on values that can raise *)

Definition attribute_error {A} (v : json) (attr : string) : outcome A :=
  Raise (Exn AttributeError
           ("'" ++ type_name v ++ "' object has no attribute '" ++ attr ++ "'")).

(** The receiver of a [dict] method. *)
Definition as_dict (v : json) (attr : string)
  : outcome (list (string * json)) :=
  match v with
  | JObject d => Ok d
  | _ => attribute_error v attr
  end.

(** [v.get(key, default)] *)
Definition py_get (v : json) (key : string) (default : json) : outcome json :=
  let? d := as_dict v "get" in
  Ok (match Dict.get key d with Some x => x | None => default end).

(** [d[key]] on a [dict] *)
Definition dict_getitem (d : list (string * json)) (key : string)
  : outcome json :=
  match Dict.get key d with
  | Some x => Ok x
  | None => Raise (Exn KeyError (str_repr key))
  end.

(** [v[key]] with a [str] key *)
Definition py_getitem (v : json) (key : string) : outcome json :=
  match v with
  | JObject d => dict_getitem d key
  | JArray _ =>
      Raise (Exn TypeError "list indices must be integers or slices, not str")
  | JString _ =>
      Raise (Exn TypeError "string indices must be integers, not 'str'")
  | _ =>
      Raise (Exn TypeError
               ("'" ++ type_name v ++ "' object is not subscriptable"))
  end.

(** [d.pop(key)], keeping the dictionary *)
Definition dict_pop (d : list (string * json)) (key : string)
  : outcome (list (string * json)) :=
  match Dict.get key d with
  | Some _ => Ok (Dict.remove key d)
  | None => Raise (Exn KeyError (str_repr key))
  end.

(** [v.upper()], [v.title()] *)
Definition py_upper (v : json) : outcome string :=
  match v with
  | JString s => Ok (upper s)
  | _ => attribute_error v "upper"
  end.

Definition py_title (v : json) : outcome string :=
  match v with
  | JString s => Ok (title s)
  | _ => attribute_error v "title"
  end.

(** The items of [for x in v]. *)
Definition py_iter (v : json) : outcome (list json) :=
  match v with
  | JArray l => Ok l
  | JObject d => Ok (map JString (Dict.keys d))
  | JString s => Ok (map (fun c => JString (str1 c)) (list_ascii_of_string s))
  | _ => Raise (Exn TypeError ("'" ++ type_name v ++ "' object is not iterable"))
  end.

(** [x in v] *)
Definition py_contains (x v : json) : outcome bool :=
  match v with
  | JArray l => Ok (existsb (py_eq x) l)
  | JObject d =>
      match x with
      | JString k => Ok (Dict.mem k d)
      | JArray _ | JObject _ =>
          Raise (Exn TypeError ("unhashable type: '" ++ type_name x ++ "'"))
      | _ => Ok false
      end
  | JString s =>
      match x with
      | JString n => Ok (is_substring n s)
      | _ =>
          Raise (Exn TypeError
                   ("'in <string>' requires string as left operand, not "
                    ++ type_name x))
      end
  | _ =>
      Raise (Exn TypeError
               ("argument of type '" ++ type_name v ++ "' is not iterable"))
  end.

(** The subject of [re.match] must be a [str]. *)
Definition re_subject (v : json) : outcome string :=
  match v with
  | JString s => Ok s
  | _ =>
      Raise (Exn TypeError
               ("expected string or bytes-like object, got '"
                ++ type_name v ++ "'"))
  end.

(** A list comprehension [[i for i in l if keep i]]. *)
Fixpoint filter_raising (keep : json -> outcome bool) (l : list json)
  : outcome (list json) :=
  match l with
  | [] => Ok []
  | i :: l' =>
      let? b := keep i in
      let? rest := filter_raising keep l' in
      Ok (if b then i :: rest else rest)
  end.

(** A list comprehension [[f i for i in l]]. *)
Fixpoint map_raising {B} (f : json -> outcome B) (l : list json)
  : outcome (list B) :=
  match l with
  | [] => Ok []
  | i :: l' =>
      let? x := f i in
      let? rest := map_raising f l' in
      Ok (x :: rest)
  end.

(* ================================================================= *)
(** ** The HTTP layer *)

Inductive method : Type := GET | POST | PATCH | DELETE.

Record request : Type := Request {
  verb : method;
  url : string;
  headers : list (string * string);
  payload : option json          (** the [json=] argument *)
}.

Inductive body : Type :=
| NotJson (err : string)         (** [response.json()] raises, with [err] *)
| Json (v : json).

Record response : Type := Response {
  status_code : Z;
  reason : string;
  content : body
}.

Inductive reply : Type :=
| Unreachable (err : string)     (** the call raises a [RequestException] *)
| Replied (r : response).

(** The server answers a request knowing the requests made before it. *)
Definition server : Type := list request -> request -> reply.

(** A computation that can call the server and can raise: it is given the
    server and the log of the requests made so far, and returns its outcome
    with the extended log. *)
Definition io (A : Type) : Type :=
  server -> list request -> outcome A * list request.

Definition ret {A} (a : A) : io A := fun _ log => (Ok a, log).

Definition bind {A B} (m : io A) (k : A -> io B) : io B :=
  fun srv log =>
    match m srv log with
    | (Ok a, log') => k a srv log'
    | (Raise e, log') => (Raise e, log')
    end.

Definition lift {A} (o : outcome A) : io A := fun _ log => (o, log).

Notation "'let!' x ':=' m 'in' k" := (bind m (fun x => k))
  (at level 10, x name, m at level 100, k at level 200).

Definition requests_call (req : request) : io response :=
  fun srv log =>
    match srv log req with
    | Unreachable err => (Raise (Exn TransportError err), (log ++ [req])%list)
    | Replied r => (Ok r, (log ++ [req])%list)
    end.

Definition requests_get (u : string) (h : list (string * string)) :=
  requests_call (Request GET u h None).
Definition requests_delete (u : string) (h : list (string * string)) :=
  requests_call (Request DELETE u h None).
Definition requests_post (u : string) (h : list (string * string))
  (data : json) := requests_call (Request POST u h (Some data)).
Definition requests_patch (u : string) (h : list (string * string))
  (data : json) := requests_call (Request PATCH u h (Some data)).

(** [response.json()] *)
Definition response_json (r : response) : outcome json :=
  match content r with
  | Json v => Ok v
  | NotJson err => Raise (Exn ResponseDecodeError err)
  end.

(** [response.raise_for_status()] *)
Definition raise_for_status (u : string) (r : response) : outcome unit :=
  let st := status_code r in
  if (400 <=? st) && (st <? 500) then
    Raise (Exn HTTPError (string_of_Z st ++ " Client Error: " ++ reason r
                          ++ " for url: " ++ u))
  else if (500 <=? st) && (st <? 600) then
    Raise (Exn HTTPError (string_of_Z st ++ " Server Error: " ++ reason r
                          ++ " for url: " ++ u))
  else Ok tt.

(** The two handlers that close six of the functions:
    [except requests.RequestException] and [except Exception]. *)
Definition try_except (m : io string) : io string :=
  fun srv log =>
    match m srv log with
    | (Ok s, log') => (Ok s, log')
    | (Raise (Exn c msg), log') =>
        (Ok (if is_request_exception c
             then "Error: Network error - " ++ msg
             else "Error: Unexpected error - " ++ msg), log')
    end.

(** [except Exception] alone. *)
Definition try_except_exception (m : io string) : io string :=
  fun srv log =>
    match m srv log with
    | (Ok s, log') => (Ok s, log')
    | (Raise (Exn _ msg), log') =>
        (Ok ("Error: Unexpected error - " ++ msg), log')
    end.

(** An inner [try] with [except requests.exceptions.RequestException]. *)
Definition try_request {A} (m : io A) : io (string + A) :=
  fun srv log =>
    match m srv log with
    | (Ok a, log') => (Ok (inr a), log')
    | (Raise (Exn c msg), log') =>
        if is_request_exception c then (Ok (inl msg), log')
        else (Raise (Exn c msg), log')
    end.

(** ** Configuration *)

(** [os.environ] *)
Definition environ : Type := string -> option string.

Definition os_environ_get (env : environ) (key default : string) : string :=
  match env key with Some v => v | None => default end.

Definition API_KEY (env : environ) : string :=
  os_environ_get env "PLANE_API_KEY"
    "plane_api_614f7240a5df4177840558c34bddb668".
Definition BASE_URL (env : environ) : string :=
  os_environ_get env "PLANE_BASE_URL" "http://192.168.50.90/api/v1".
Definition WORKSPACE_SLUG (env : environ) : string :=
  os_environ_get env "PLANE_WORKSPACE_SLUG" "test-space".

Definition request_headers (env : environ) : list (string * string) :=
  [("X-API-Key", API_KEY env); ("Content-Type", "application/json")].

(** [{BASE_URL}/workspaces/{WORKSPACE_SLUG}/projects] *)
Definition projects_path (env : environ) : string :=
  BASE_URL env ++ "/workspaces/" ++ WORKSPACE_SLUG env ++ "/projects".

(** [json.loads(params_json) if params_json else {}] *)
Definition load_params (params_json : string) : option json :=
  if nonempty params_json then json_loads params_json
  else Some (JObject []).

Definition get_or (d : list (string * json)) (key : string) (default : json)
  : json :=
  match Dict.get key d with Some x => x | None => default end.

(* ================================================================= *)
(** ** get_plane_issue_id.py *)

(** The loop over the projects: the first one whose identifier, in upper
    case, is the project code in upper case; [None] when there is none. *)
Fixpoint find_project (project_code : string) (projects : list json)
  : outcome json :=
  match projects with
  | [] => Ok JNull
  | p :: rest =>
      let? identifier := py_get p "identifier" (JString "") in
      let? upper_identifier := py_upper identifier in
      if String.eqb upper_identifier (upper project_code) then Ok p
      else find_project project_code rest
  end.

(** The loop over the issues: the result built for the first one whose
    sequence_id equals the number; nothing when the loop ends. *)
Fixpoint find_issue (project : json) (sequence_id : Z) (issues : list json)
  : outcome (option string) :=
  match issues with
  | [] => Ok None
  | issue :: rest =>
      let? seq := py_get issue "sequence_id" JNull in
      if py_eq seq (JInt sequence_id) then
        let? issue_id := py_getitem issue "id" in
        let? project_id := py_getitem project "id" in
        let? name := py_getitem issue "name" in
        let? state := py_get issue "state" JNull in
        Ok (Some (json_dumps (JObject [("issue_id", issue_id);
                                       ("project_id", project_id);
                                       ("name", name);
                                       ("current_state", state)])))
      else find_issue project sequence_id rest
  end.

Definition invalid_issue_code_format : string :=
  "Error: Invalid issue code format. Expected format: PROJECT_CODE-NUMBER (e.g. CLT-37)".

(** From [# Configuration] to the end of the [try] body: the two lookups
    for a project code and a sequence number. *)
Definition issue_lookup (env : environ) (project_code : string)
  (sequence_id : Z) : io string :=
  let headers := request_headers env in
  let projects_url := projects_path env in
  let! projects_response := requests_get projects_url headers in
  if negb (status_code projects_response =? 200)
  then ret ("Error: Failed to get projects - "
            ++ string_of_Z (status_code projects_response)) else
  let! projects := lift (response_json projects_response) in
  let! candidates := lift (py_iter projects) in
  let! project := lift (find_project project_code candidates) in
  if negb (truthy project)
  then ret ("Error: No project found with identifier " ++ project_code) else
  let! project_id := lift (py_getitem project "id") in
  let issues_url :=
    projects_path env ++ "/" ++ py_str project_id ++ "/issues/" in
  let! issues_response := requests_get issues_url headers in
  if negb (status_code issues_response =? 200)
  then ret ("Error: Failed to get issues - "
            ++ string_of_Z (status_code issues_response)) else
  let! issues := lift (response_json issues_response) in
  let! items := lift (py_iter issues) in
  let! found := lift (find_issue project sequence_id items) in
  match found with
  | Some result => ret result
  | None =>
      ret ("Error: No issue found with sequence ID "
           ++ string_of_Z sequence_id ++ " in project " ++ project_code)
  end.

Definition get_plane_issue_id (env : environ) (params_json : string)
  : io string :=
  try_except
    match load_params params_json with
    | None => ret "Error: Invalid JSON parameters"
    | Some params =>
    let! d := lift (as_dict params "get") in
    if negb (truthy (get_or d "issue_code" JNull))
    then ret "Error: Issue code is required" else
    let! issue_code := lift (dict_getitem d "issue_code") in
    let! subject := lift (re_subject issue_code) in
    match match_issue_code subject with
    | None => ret invalid_issue_code_format
    | Some (project_code, digits) =>
        issue_lookup env project_code (int_of_digits digits)
    end
    end.

(* ================================================================= *)
(** ** update_plane_issue_v2.py *)

(** The file repeats [get_plane_issue_id] verbatim; [update_plane_issue]
    calls that copy. *)

Definition change_list (update_data : list (string * json)) : list string :=
  ((if Dict.mem "state_id" update_data then ["status changed"] else [])
   ++ (if Dict.mem "name" update_data then ["title updated"] else [])
   ++ (if Dict.mem "description" update_data
       then ["description updated"] else [])
   ++ (if Dict.mem "priority" update_data
       then [("priority set to "
              ++ py_str (get_or update_data "priority" JNull))%string]
       else [])
   ++ (if Dict.mem "assignee_ids" update_data
       then ["assignees updated"] else []))%list.

(** From [# Configuration] to the end of the [try] body: [params] holds the
    identifiers to use. *)
Definition update_plane_issue_send (env : environ)
  (params : list (string * json)) : io string :=
  let headers := request_headers env in
  let! without_project := lift (dict_pop params "project_id") in
  let! without_ids := lift (dict_pop without_project "issue_id") in
  let update_data :=
    match Dict.get "description" without_ids with
    | Some description =>
        Dict.set "description_html"
          (JString ("<p>" ++ py_str description ++ "</p>")) without_ids
    | None => without_ids
    end in
  if negb (truthy (JObject update_data))
  then ret "Error: No update parameters provided" else
  let! project_id := lift (dict_getitem params "project_id") in
  let! issue_id := lift (dict_getitem params "issue_id") in
  let url := projects_path env ++ "/" ++ py_str project_id
             ++ "/issues/" ++ py_str issue_id ++ "/" in
  let! response := requests_patch url headers (JObject update_data) in
  if status_code response =? 200 then
    let! result := lift (response_json response) in
    let changes := change_list update_data in
    let change_text :=
      match changes with
      | [] => ""
      | _ => " - " ++ String.concat ", " changes
      end in
    let! name := lift (py_getitem result "name") in
    let! seq := lift (py_getitem result "sequence_id") in
    ret ("Issue updated: " ++ py_str name ++ " (#" ++ py_str seq ++ ")"
         ++ change_text)
  else
    ret ("Error: API request failed with status code "
         ++ string_of_Z (status_code response)).

Definition could_not_resolve (issue_id : json) (resolution_result : string)
  : string :=
  "Error: Could not resolve issue code " ++ py_str issue_id
  ++ " to a UUID.  Details: " ++ resolution_result.

Definition update_plane_issue (env : environ) (params_json : string)
  : io string :=
  try_except
    match load_params params_json with
    | None => ret "Error: Invalid JSON parameters"
    | Some params =>
    let! d := lift (as_dict params "get") in
    if negb (truthy (get_or d "project_id" JNull))
    then ret "Error: Project ID is required" else
    if negb (truthy (get_or d "issue_id" JNull))
    then ret "Error: Issue ID is required" else
    let! issue_id := lift (dict_getitem d "issue_id") in
    let! subject := lift (re_subject issue_id) in
    if negb (match_uuid subject) then
      let issue_resolution_params :=
        json_dumps (JObject [("issue_code", issue_id)]) in
      let! resolution_result :=
        get_plane_issue_id env issue_resolution_params in
      match json_loads resolution_result with
      | Some resolution_data =>
          let! resolved :=
            lift (py_contains (JString "issue_id") resolution_data) in
          if resolved then
            let! new_issue_id := lift (py_getitem resolution_data "issue_id") in
            let d1 := Dict.set "issue_id" new_issue_id d in
            let! new_project_id :=
              lift (py_getitem resolution_data "project_id") in
            let d2 := Dict.set "project_id" new_project_id d1 in
            update_plane_issue_send env d2
          else ret (could_not_resolve issue_id resolution_result)
      | None => ret (could_not_resolve issue_id resolution_result)
      end
    else update_plane_issue_send env d
    end.

(* ================================================================= *)
(** ** create_plane_issue_v2.py *)

Definition optional_fields : list string :=
  ["state_id"; "assignee_ids"; "label_ids"; "start_date"; "target_date"].

(** The loop [for field in optional_fields]. *)
Definition add_optional_fields (params issue_data : list (string * json))
  : list (string * json) :=
  fold_left
    (fun data field =>
       if truthy (get_or params field JNull)
       then Dict.set field (get_or params field JNull) data
       else data)
    optional_fields issue_data.

Definition create_plane_issue (env : environ) (params_json : string)
  : io string :=
  try_except
    match load_params params_json with
    | None => ret "Error: Invalid JSON parameters"
    | Some params =>
    let! d := lift (as_dict params "get") in
    if negb (truthy (get_or d "project_id" JNull))
    then ret "Error: Project ID is required" else
    if negb (truthy (get_or d "name" JNull))
    then ret "Error: Issue name is required" else
    let headers := request_headers env in
    let! name := lift (dict_getitem d "name") in
    let issue_data :=
      [("name", name);
       ("description", get_or d "description" (JString ""));
       ("description_html",
        JString ("<p>" ++ py_str (get_or d "description" (JString ""))
                 ++ "</p>"));
       ("priority", get_or d "priority" (JString "none"))] in
    let issue_data := add_optional_fields d issue_data in
    let! project_id := lift (dict_getitem d "project_id") in
    let url := projects_path env ++ "/" ++ py_str project_id ++ "/issues/" in
    let! response := requests_post url headers (JObject issue_data) in
    if status_code response =? 201 then
      let! result := lift (response_json response) in
      let! rname := lift (py_getitem result "name") in
      let! seq := lift (py_getitem result "sequence_id") in
      ret ("Issue created: " ++ py_str rname ++ " (#" ++ py_str seq ++ ")")
    else
      ret ("Error: API request failed with status code "
           ++ string_of_Z (status_code response))
    end.

(* ================================================================= *)
(** ** delete_plane_project.py *)

Definition confirmation_required : string :=
  "Error: Please confirm deletion by setting 'confirm': true".

Definition delete_plane_project (env : environ) (params_json : string)
  : io string :=
  try_except
    match load_params params_json with
    | None => ret "Error: Invalid JSON parameters"
    | Some params =>
    let! d := lift (as_dict params "get") in
    if negb (truthy (get_or d "project_id" JNull))
    then ret "Error: Project ID is required" else
    if negb (truthy (get_or d "confirm" JNull))
    then ret confirmation_required else
    let headers := request_headers env in
    let! project_id := lift (dict_getitem d "project_id") in
    let project_url := projects_path env ++ "/" ++ py_str project_id ++ "/" in
    let! project_response := requests_get project_url headers in
    if negb (status_code project_response =? 200)
    then ret ("Error: Project not found or access denied (Status code: "
              ++ string_of_Z (status_code project_response) ++ ")") else
    let! project := lift (response_json project_response) in
    let! project_name :=
      lift (py_get project "name" (JString "Unknown Project")) in
    let! project_identifier :=
      lift (py_get project "identifier" (JString "Unknown")) in
    let! response := requests_delete project_url headers in
    if status_code response =? 204 then
      ret ("Project deleted successfully: " ++ py_str project_name
           ++ " (" ++ py_str project_identifier ++ ")")
    else if status_code response =? 404 then
      ret "Error: Project not found"
    else if status_code response =? 403 then
      ret "Error: Permission denied to delete project"
    else
      ret ("Error: Failed to delete project (Status code: "
           ++ string_of_Z (status_code response) ++ ")")
    end.

(* ================================================================= *)
(** ** list_plane_issues_v2.py *)

(** One [if params.get(key): issues = [i for i in issues if ...]] step. *)
Definition filter_step (supplied : json) (keep : json -> outcome bool)
  (issues : json) : outcome json :=
  if truthy supplied then
    let? items := py_iter issues in
    let? kept := filter_raising keep items in
    Ok (JArray kept)
  else Ok issues.

Definition keep_state (state_id i : json) : outcome bool :=
  let? st := py_get i "state" JNull in Ok (py_eq st state_id).
Definition keep_priority (priority i : json) : outcome bool :=
  let? pr := py_get i "priority" JNull in Ok (py_eq pr priority).
Definition keep_assignee (assignee_id i : json) : outcome bool :=
  let? l := py_get i "assignees" (JArray []) in py_contains assignee_id l.
Definition keep_label (label_id i : json) : outcome bool :=
  let? l := py_get i "labels" (JArray []) in py_contains label_id l.

Definition filter_issues (params : list (string * json)) (issues : json)
  : outcome json :=
  let? issues :=
    filter_step (get_or params "state_id" JNull)
                (keep_state (get_or params "state_id" JNull)) issues in
  let? issues :=
    filter_step (get_or params "priority" JNull)
                (keep_priority (get_or params "priority" JNull)) issues in
  let? issues :=
    filter_step (get_or params "assignee_id" JNull)
                (keep_assignee (get_or params "assignee_id" JNull)) issues in
  filter_step (get_or params "label_id" JNull)
              (keep_label (get_or params "label_id" JNull)) issues.

(** One line of the listing. *)
Definition format_issue (issue : json) : outcome string :=
  let? priority := py_getitem issue "priority" in
  let? priority_text :=
    if negb (py_eq priority (JString "none")) then
      let? priority := py_getitem issue "priority" in
      let? titled := py_title priority in
      Ok (" - " ++ titled ++ " Priority")
    else Ok "" in
  let? state_detail := py_get issue "state_detail" (JObject []) in
  let? state_name := py_get state_detail "name" (JString "Unknown State") in
  let state_text := " - " ++ py_str state_name in
  let? seq := py_getitem issue "sequence_id" in
  let? name := py_getitem issue "name" in
  Ok (py_str seq ++ ". " ++ py_str name ++ priority_text ++ state_text).

Definition format_listing (project issues : json) : outcome string :=
  let? project_name := py_getitem project "name" in
  let header := "Issues in " ++ py_str project_name ++ ":" in
  let? items := py_iter issues in
  let? lines := map_raising format_issue items in
  Ok (String.concat (str1 newline) (header :: lines)).

Definition no_issues_match : string := "No issues match the specified filters".

Definition list_plane_issues (env : environ) (params_json : string)
  : io string :=
  try_except
    match load_params params_json with
    | None => ret "Error: Invalid JSON parameters"
    | Some params =>
    let! d := lift (as_dict params "get") in
    if negb (truthy (get_or d "project_id" JNull))
    then ret "Error: Project ID is required" else
    let headers := request_headers env in
    let! project_id := lift (dict_getitem d "project_id") in
    let project_url := projects_path env ++ "/" ++ py_str project_id ++ "/" in
    let! project_response := requests_get project_url headers in
    if negb (status_code project_response =? 200)
    then ret ("Error: Failed to get project details - "
              ++ string_of_Z (status_code project_response)) else
    let! project := lift (response_json project_response) in
    let! project_id := lift (dict_getitem d "project_id") in
    let issues_url :=
      projects_path env ++ "/" ++ py_str project_id ++ "/issues/" in
    let! response := requests_get issues_url headers in
    if status_code response =? 200 then
      let! page := lift (response_json response) in
      let! issues := lift (py_get page "results" (JArray [])) in
      if negb (truthy issues) then
        let! project_name := lift (py_getitem project "name") in
        ret ("No issues found in project " ++ py_str project_name)
      else
      let! issues := lift (filter_issues d issues) in
      if negb (truthy issues) then ret no_issues_match else
      lift (format_listing project issues)
    else
      ret ("Error: API request failed with status code "
           ++ string_of_Z (status_code response))
    end.

(* ================================================================= *)
(** ** list_plane_projects_v2.py *)

Definition format_project (p : json) : outcome string :=
  let? name := py_getitem p "name" in
  let? id := py_getitem p "id" in
  Ok (py_str name ++ " (ID: " ++ py_str id ++ ")").

(** [params_json] is not read. *)
Definition list_plane_projects (env : environ) (params_json : string)
  : io string :=
  try_except
    (let headers := request_headers env in
     let url := projects_path env ++ "/" in
     let! response := requests_get url headers in
     if status_code response =? 200 then
       let! page := lift (response_json response) in
       let! projects := lift (py_get page "results" (JArray [])) in
       let! items := lift (py_iter projects) in
       let! project_info := lift (map_raising format_project items) in
       ret ("Projects:" ++ str1 newline
            ++ String.concat (str1 newline) project_info)
     else
       ret ("Error: API request failed with status code "
            ++ string_of_Z (status_code response))).

(* ================================================================= *)
(** ** create_plane_project_v2.py *)

(** The [logging] calls write to the log stream only and are left out. *)
Definition create_plane_project (env : environ) (params_json : string)
  : io string :=
  try_except_exception
    match load_params params_json with
    | None => ret "Error: Invalid JSON parameters"
    | Some params =>
    let! d := lift (as_dict params "get") in
    let project_name := get_or d "name" JNull in
    let project_identifier := get_or d "identifier" JNull in
    if negb (truthy project_name)
    then ret "Error: Project name is required" else
    if negb (truthy project_identifier)
    then ret "Error: Project identifier is required" else
    let headers := request_headers env in
    let project_data :=
      [("name", project_name);
       ("identifier", project_identifier);
       ("description", get_or d "description" (JString ""));
       ("network", get_or d "network" (JInt 2))] in
    let url := projects_path env ++ "/" in
    let! attempt :=
      try_request
        (let! response := requests_post url headers (JObject project_data) in
         let! _ := lift (raise_for_status url response) in
         ret response) in
    match attempt with
    | inl msg => ret ("Error: API request failed - " ++ msg)
    | inr response =>
        if status_code response =? 201 then
          let! result := lift (response_json response) in
          let! name := lift (py_getitem result "name") in
          let! identifier := lift (py_getitem result "identifier") in
          ret ("Project created: " ++ py_str name
               ++ " (" ++ py_str identifier ++ ")")
        else
          ret ("Error: API request failed with status code "
               ++ string_of_Z (status_code response))
    end
    end.

(* ================================================================= *)
(** ** The seven operations together *)

Inductive operation : Type :=
| CreateProject
| DeleteProject
| ListProjects
| CreateIssue
| ListIssues
| UpdateIssue
| ResolveIssueCode.

Definition run_operation (op : operation) : environ -> string -> io string :=
  match op with
  | CreateProject => create_plane_project
  | DeleteProject => delete_plane_project
  | ListProjects => list_plane_projects
  | CreateIssue => create_plane_issue
  | ListIssues => list_plane_issues
  | UpdateIssue => update_plane_issue
  | ResolveIssueCode => get_plane_issue_id
  end.

(* ================================================================= *)
(** ** Vocabulary of the specification *)




(** [n] lower-case hexadecimal digits. *)
Definition hex_group (n : nat) (s : string) : Prop :=
  String.length s = n /\ all_chars is_lower_hex s = true.

(** A UUID in its canonical text form, 8-4-4-4-12. *)
Definition well_formed_uuid (s : string) : Prop :=
  exists a b c d e,
    s = a ++ "-" ++ b ++ "-" ++ c ++ "-" ++ d ++ "-" ++ e
    /\ hex_group 8 a /\ hex_group 4 b /\ hex_group 4 c /\ hex_group 4 d
    /\ hex_group 12 e.

Definition is_object (v : json) : bool :=
  match v with JObject _ => true | _ => false end.

Definition field (v : json) (key : string) : option json :=
  match v with JObject d => Dict.get key d | _ => None end.

Definition has_field (v : json) (key : string) : bool :=
  match field v key with Some _ => true | None => false end.





Definition or_null (o : option json) : json :=
  match o with Some v => v | None => JNull end.




Definition supplied (params : list (string * json)) (key : string) : bool :=
  truthy (get_or params key JNull).










(** What a caller can tell from a result: an error text, or the regular
    shape of the operation's answer. *)
Definition is_error (s : string) : Prop := starts_with "Error: " s = true.

Definition regular_result (op : operation) (s : string) : Prop :=
  match op with
  | CreateProject => starts_with "Project created: " s = true
  | DeleteProject => starts_with "Project deleted successfully: " s = true
  | ListProjects => starts_with ("Projects:" ++ str1 newline) s = true
  | CreateIssue => starts_with "Issue created: " s = true
  | ListIssues =>
      starts_with "No issues found in project " s = true
      \/ s = no_issues_match
      \/ starts_with "Issues in " s = true
  | UpdateIssue => starts_with "Issue updated: " s = true
  | ResolveIssueCode =>
      exists issue_id project_id name state,
        s = json_dumps (JObject [("issue_id", issue_id);
                                 ("project_id", project_id);
                                 ("name", name);
                                 ("current_state", state)])
  end.

Definition answer (op : operation) (s : string) : Prop :=
  is_error s \/ regular_result op s.

(** The requests of the operations. *)
Definition get_projects (env : environ) : request :=
  Request GET (projects_path env) (request_headers env) None.

Definition get_issues (env : environ) (project_id : json) : request :=
  Request GET (projects_path env ++ "/" ++ py_str project_id ++ "/issues/")
          (request_headers env) None.

Definition get_project (env : environ) (project_id : json) : request :=
  Request GET (projects_path env ++ "/" ++ py_str project_id ++ "/")
          (request_headers env) None.

Definition list_projects_request (env : environ) : request :=
  Request GET (projects_path env ++ "/") (request_headers env) None.

Definition post_issue (env : environ) (project_id : json)
  (data : list (string * json)) : request :=
  Request POST (projects_path env ++ "/" ++ py_str project_id ++ "/issues/")
          (request_headers env) (Some (JObject data)).

Definition patch_issue (env : environ) (project_id issue_id : json)
  (data : list (string * json)) : request :=
  Request PATCH (projects_path env ++ "/" ++ py_str project_id
                 ++ "/issues/" ++ py_str issue_id ++ "/")
          (request_headers env) (Some (JObject data)).

(** The fields [create_plane_issue] always sends. *)
Definition issue_base (params : list (string * json))
  : list (string * json) :=
  [("name", get_or params "name" JNull);
   ("description", get_or params "description" (JString ""));
   ("description_html",
    JString ("<p>" ++ py_str (get_or params "description" (JString ""))
             ++ "</p>"));
   ("priority", get_or params "priority" (JString "none"))].

(** The fields [create_plane_project] always sends. *)
Definition project_base (params : list (string * json))
  : list (string * json) :=
  [("name", get_or params "name" JNull);
   ("identifier", get_or params "identifier" JNull);
   ("description", get_or params "description" (JString ""));
   ("network", get_or params "network" (JInt 2))].

Definition post_project (env : environ) (data : list (string * json))
  : request :=
  Request POST (projects_path env ++ "/") (request_headers env)
          (Some (JObject data)).

(** The error for the first required parameter of an operation that reads
    its parameters. *)
Definition first_required (op : operation) : string :=
  match op with
  | CreateProject => "Error: Project name is required"
  | ResolveIssueCode => "Error: Issue code is required"
  | _ => "Error: Project ID is required"
  end.

(** The body [update_plane_issue] sends for the parameters [params]. *)
Definition update_body (params : list (string * json))
  : list (string * json) :=
  let rest := Dict.remove "issue_id" (Dict.remove "project_id" params) in
  match Dict.get "description" rest with
  | Some description =>
      Dict.set "description_html"
        (JString ("<p>" ++ py_str description ++ "</p>")) rest
  | None => rest
  end.

(* ================================================================= *)
(** ** Sample data *)

Module Sample.
Definition env : environ := fun _ => None.

Definition ok (v : json) : reply := Replied (Response 200 "OK" (Json v)).

Definition project (identifier id : string) : json :=
  JObject [("id", JString id); ("identifier", JString identifier);
           ("name", JString ("Project " ++ identifier))].

Definition issue (n : Z) (id name priority : string) : json :=
  JObject [("id", JString id); ("sequence_id", JInt n);
           ("name", JString name); ("priority", JString priority);
           ("state", JString "st-1")].

Definition projects : list json :=
  [project "OPS" "p-0"; project "clt" "p-1"; project "CLT" "p-2"].

Definition issues : list json :=
  [issue 36 "i-36" "Write docs" "low"; issue 37 "i-37" "Bug Fix" "high";
   issue 37 "i-37b" "Shadowed" "high"].

(** A server that lists its projects and issues as plain arrays, the
    shape the resolver reads. *)
Definition array_server : server := fun _ r =>
  if String.eqb (url r) (projects_path env) then ok (JArray projects)
  else ok (JArray issues).

(** A server that wraps its listings in a page, the shape the two list
    operations read. *)
Definition paged_server : server := fun _ r =>
  match verb r with
  | GET =>
      if starts_with "/issues/"
           (string_drop (String.length (url r) - 8) (url r))
      then ok (JObject [("results", JArray issues)])
      else if String.eqb (url r) (projects_path env ++ "/")
      then ok (JObject [("results", JArray projects)])
      else ok (project "CLT" "p-1")
  | _ => Replied (Response 404 "Not Found" (NotJson "Expecting value"))
  end.

(** A server that cannot be reached. *)
Definition down : server := fun _ _ => Unreachable "connection refused".

(** A server that refuses every request. *)
Definition forbidden : server := fun _ _ =>
  Replied (Response 403 "Forbidden" (NotJson "Expecting value")).

Definition uuid : string := "550e8400-e29b-41d4-a716-446655440000".
End Sample.

(* ================================================================= *)
(** ** Specifications of computations *)

(** [ensures Q P m]: whatever the server and the log, [m] only adds
    requests that satisfy [Q], and a normal result satisfies [P]. *)
Definition ensures {A} (Q : request -> Prop) (P : A -> Prop) (m : io A)
  : Prop :=
  forall srv log,
    exists extra,
      snd (m srv log) = (log ++ extra)%list /\ Forall Q extra
      /\ match fst (m srv log) with
         | Ok a => P a
         | Raise _ => True
         end.

Definition any_request : request -> Prop := fun _ => True.
Definition any_result {A} : A -> Prop := fun _ => True.
Definition is_get (r : request) : Prop := verb r = GET.

(* ================================================================= *)
(** ** Further vocabulary *)

(** The parameters an operation requires, in the order it checks them, each
    with the error it returns when the value is missing or falsy. *)
Definition required_parameters (op : operation) : list (string * string) :=
  match op with
  | CreateProject =>
      [("name", "Error: Project name is required");
       ("identifier", "Error: Project identifier is required")]
  | DeleteProject =>
      [("project_id", "Error: Project ID is required");
       ("confirm", confirmation_required)]
  | ListProjects => []
  | CreateIssue =>
      [("project_id", "Error: Project ID is required");
       ("name", "Error: Issue name is required")]
  | ListIssues => [("project_id", "Error: Project ID is required")]
  | UpdateIssue =>
      [("project_id", "Error: Project ID is required");
       ("issue_id", "Error: Issue ID is required")]
  | ResolveIssueCode => [("issue_code", "Error: Issue code is required")]
  end.

(** The error of the first required parameter that [params] does not
    supply. *)
Fixpoint first_missing (params : list (string * json))
  (required : list (string * string)) : option string :=
  match required with
  | [] => None
  | (key, error) :: rest =>
      if supplied params key then first_missing params rest else Some error
  end.

(** What [AttributeError] says when [.get] is called on a value that is not
    a [dict]. *)
Definition no_get_attribute (v : json) : string :=
  "Error: Unexpected error - '" ++ type_name v
  ++ "' object has no attribute 'get'".

(** [performs R m]: whatever the server and the log, [m] only appends
    requests, and the verbs of the requests it appends, in order, are related
    by [R] to its outcome. *)
Definition performs {A} (R : list method -> outcome A -> Prop) (m : io A)
  : Prop :=
  forall srv log,
    exists extra,
      snd (m srv log) = (log ++ extra)%list
      /\ R (map verb extra) (fst (m srv log)).

(** The sequences of requests an operation can make in one call. *)
Definition request_patterns (op : operation) : list (list method) :=
  match op with
  | CreateProject | CreateIssue => [[]; [POST]]
  | ListProjects => [[GET]]
  | DeleteProject => [[]; [GET]; [GET; DELETE]]
  | ListIssues | ResolveIssueCode => [[]; [GET]; [GET; GET]]
  | UpdateIssue => [[]; [PATCH]; [GET]; [GET; GET]; [GET; GET; PATCH]]
  end.

(** What the two closing handlers turn an outcome into. *)
Definition handled (o : outcome string) : string -> Prop :=
  fun s =>
    match o with
    | Ok r => s = r
    | Raise (Exn _ msg) =>
        s = "Error: Network error - " ++ msg
        \/ s = "Error: Unexpected error - " ++ msg
    end.

(** A server that cannot be reached: every call raises with [err]. *)
Definition unreachable (err : string) : server := fun _ _ => Unreachable err.

(** [when_down err P m]: against the unreachable server, either [m] makes no
    request and its outcome satisfies [P], or it makes one request and
    raises what the call raised. *)
Definition when_down (err : string) {A} (P : outcome A -> Prop) (m : io A)
  : Prop :=
  forall log,
    (snd (m (unreachable err) log) = log /\ P (fst (m (unreachable err) log)))
    \/ exists req,
         m (unreachable err) log
         = (Raise (Exn TransportError err), (log ++ [req])%list).

(** How an operation reports a call that raised with [err]. *)
Definition reports_unreachable (op : operation) (err s : string) : Prop :=
  match op with
  | CreateProject => s = "Error: API request failed - " ++ err
  | UpdateIssue =>
      s = "Error: Network error - " ++ err
      \/ exists issue_id,
           s = could_not_resolve issue_id ("Error: Network error - " ++ err)
  | _ => s = "Error: Network error - " ++ err
  end.

Definition delete_project (env : environ) (project_id : json) : request :=
  Request DELETE (projects_path env ++ "/" ++ py_str project_id ++ "/")
          (request_headers env) None.

(** A field of an object, or a default. *)
Definition field_or (v : json) (key : string) (default : json) : json :=
  match field v key with Some x => x | None => default end.

(** The line of [list_plane_projects] for a project. *)
Definition project_line (p : json) : string :=
  py_str (or_null (field p "name")) ++ " (ID: "
  ++ py_str (or_null (field p "id")) ++ ")".

(** The text after the issue in the answer of [update_plane_issue]. *)
Definition change_text (update_data : list (string * json)) : string :=
  match change_list update_data with
  | [] => ""
  | changes => " - " ++ String.concat ", " changes
  end.

(* ================================================================= *)
(** * Properties *)

(** ** Text *)

Lemma length_append (a b : string) :
  String.length (a ++ b) = (String.length a + String.length b)%nat.
Proof. induction a; cbn; [reflexivity | now rewrite IHa]. Qed.

Lemma append_assoc (a b c : string) : (a ++ b) ++ c = a ++ b ++ c.
Proof. induction a; cbn; [reflexivity | now rewrite IHa]. Qed.

Lemma append_nil_r (a : string) : a ++ "" = a.
Proof. induction a; cbn; [reflexivity | now rewrite IHa]. Qed.

Lemma all_chars_cons p c s :
  all_chars p (String c s) = p c && all_chars p s.
Proof. reflexivity. Qed.

Lemma starts_with_app (p h x : string) :
  starts_with p h = true -> starts_with p (h ++ x) = true.
Proof.
  revert h. induction p as [| c p IH]; intros h H; [reflexivity |].
  destruct h as [| c' h]; cbn in *; [discriminate |].
  apply andb_true_iff in H as [-> H]. now apply IH.
Qed.


Lemma span_eq p s a r :
  span p s = (a, r) -> s = a ++ r /\ all_chars p a = true.
Proof.
  revert a r. induction s as [| c s IH]; cbn; intros a r.
  - intros [= <- <-]. auto.
  - destruct (p c) eqn:Hc.
    + destruct (span p s) as [a' r']. intros [= <- <-].
      destruct (IH a' r' eq_refl) as [-> Ha].
      rewrite all_chars_cons, Hc. auto.
    + intros [= <- <-]. auto.
Qed.

Lemma span_length p s a r :
  span p s = (a, r) ->
  String.length s = (String.length a + String.length r)%nat.
Proof. intros H. apply span_eq in H as [-> _]. apply length_append. Qed.

Lemma take_char_length c s r :
  take_char c s = Some r -> String.length s = S (String.length r).
Proof.
  destruct s as [| c' s]; cbn; [discriminate |].
  destruct (Ascii.eqb c c'); [now intros [= ->] | discriminate].
Qed.

(** ** The decoder never runs out of fuel *)

Lemma skip_ws_length s : (String.length (skip_ws s) <= String.length s)%nat.
Proof.
  induction s as [| c s IH]; cbn; [lia |]. destruct (is_ws c); cbn; lia.
Qed.

Lemma strip_prefix_length p s r :
  strip_prefix p s = Some r ->
  String.length s = (String.length p + String.length r)%nat.
Proof.
  revert s. induction p as [| a p IH]; intros s; cbn.
  - now intros [= ->].
  - destruct s as [| b s]; [discriminate |].
    destruct (Ascii.eqb a b); [| discriminate].
    intros H. cbn. now rewrite (IH s H).
Qed.

Lemma prepend_some t o u r :
  prepend t o = Some (u, r) -> exists u', o = Some (u', r).
Proof.
  destruct o as [[u' r'] |]; cbn; [| discriminate].
  intros [= _ ->]. now exists u'.
Qed.

Lemma scan_string_length s t r :
  scan_string s = Some (t, r) -> (String.length r < String.length s)%nat.
Proof.
  assert (Hn : (String.length s <= String.length s)%nat) by lia.
  revert Hn. generalize (String.length s) at 2. intros n.
  revert s t r. induction n as [| n IH]; intros s t r Hn H;
    destruct s as [| c s1]; try discriminate; cbn in Hn; [lia |].
  cbn [scan_string] in H.
  destruct (Ascii.eqb c dquote); [injection H as _ <-; cbn; lia |].
  destruct (Ascii.eqb c backslash).
  - destruct s1 as [| e s2]; [discriminate |].
    destruct (Ascii.eqb e "u").
    + destruct s2 as [| h1 [| h2 [| h3 [| h4 s6]]]]; try discriminate.
      destruct (hex4_value h1 h2 h3 h4) as [hi |]; [| discriminate].
      assert (G : forall u o, prepend u (scan_string o) = Some (t, r) ->
                    (String.length o <= String.length s6)%nat ->
                    (String.length r
                     < String.length
                         (String c (String e (String h1 (String h2
                            (String h3 (String h4 s6)))))))%nat).
      { intros u o Ho Hlen. apply prepend_some in Ho as (u' & Ho).
        apply IH in Ho; cbn in *; lia. }
      destruct (if (55296 <=? hi) && (hi <=? 56319)
                then low_surrogate s6 else None);
        [| now apply (G _ _ H)].
      destruct s6 as [| a1 [| a2 [| a3 [| a4 [| a5 [| a6 s12]]]]]];
        try (now apply (G _ _ H)).
      apply (G _ _ H). cbn. lia.
    + destruct (simple_escape e); [| discriminate].
      apply prepend_some in H as (u' & H). apply IH in H; cbn in *; lia.
  - destruct (code c <? 32); [discriminate |].
    apply prepend_some in H as (u' & H). apply IH in H; cbn in *; lia.
Qed.

Lemma scan_fraction_length s frac r :
  scan_fraction s = (frac, r) -> (String.length r <= String.length s)%nat.
Proof.
  unfold scan_fraction. destruct (take_char "." s) as [r0 |] eqn:T.
  - apply take_char_length in T. destruct (span is_digit r0) as [ds r'] eqn:E.
    apply span_length in E. destruct (nonempty ds); intros [= _ <-]; lia.
  - intros [= _ <-]. lia.
Qed.

Lemma scan_exponent_length s ex r :
  scan_exponent s = (ex, r) -> (String.length r <= String.length s)%nat.
Proof.
  unfold scan_exponent. destruct s as [| c s]; [intros [= _ <-]; lia |].
  destruct (Ascii.eqb c "e" || Ascii.eqb c "E"); [| intros [= _ <-]; lia].
  assert (G : forall neg r1,
             (String.length r1 <= String.length s)%nat ->
             (let (ds, r2) := span is_digit r1 in
              if nonempty ds
              then (Some (if neg : bool then - int_of_digits ds
                          else int_of_digits ds), r2)
              else (None, String c s)) = (ex, r) ->
             (String.length r <= String.length (String c s))%nat).
  { intros neg r1 Hr1. destruct (span is_digit r1) as [ds r2] eqn:E.
    apply span_length in E.
    destruct (nonempty ds); intros [= _ <-]; cbn; lia. }
  destruct (take_char "-" s) as [r1 |] eqn:T1.
  - apply take_char_length in T1. intros H.
    apply (G true r1 ltac:(lia) H).
  - destruct (take_char "+" s) as [r1 |] eqn:T2.
    + apply take_char_length in T2. intros H.
      apply (G false r1 ltac:(lia) H).
    + intros H. apply (G false s ltac:(lia) H).
Qed.

Lemma scan_number_length s v r :
  scan_number s = Some (v, r) -> (String.length r < String.length s)%nat.
Proof.
  unfold scan_number.
  assert (G : forall neg s1,
             (String.length s1 <= String.length s)%nat ->
             match
               match take_char "0" s1 with
               | Some r0 => Some ("0", r0)
               | None => let (ds, r0) := span is_digit s1 in
                         if nonempty ds then Some (ds, r0) else None
               end
             with
             | None => None
             | Some (ip, s2) =>
                 let (frac, s3) := scan_fraction s2 in
                 let (ex, s4) := scan_exponent s3 in
                 if nonempty frac
                    || (match ex with Some _ => true | None => false end)
                 then
                   let e := match ex with Some e => e | None => 0 end in
                   Some (JFloat (float_norm
                                   (FDec neg (int_of_digits (ip ++ frac))
                                         (e - Z.of_nat (String.length frac)))),
                         s4)
                 else
                   Some (JInt (if neg : bool then - int_of_digits ip
                               else int_of_digits ip), s4)
             end = Some (v, r) ->
             (String.length r < String.length s)%nat).
  { intros neg s1 Hs1.
    assert (T : forall ip s2,
               (String.length s2 < String.length s1)%nat ->
               (let (frac, s3) := scan_fraction s2 in
                let (ex, s4) := scan_exponent s3 in
                if nonempty frac
                   || (match ex with Some _ => true | None => false end)
                then
                  let e := match ex with Some e => e | None => 0 end in
                  Some (JFloat (float_norm
                                  (FDec neg (int_of_digits (ip ++ frac))
                                        (e - Z.of_nat (String.length frac)))),
                        s4)
                else
                  Some (JInt (if neg : bool then - int_of_digits ip
                              else int_of_digits ip), s4)) = Some (v, r) ->
               (String.length r < String.length s)%nat).
    { intros ip s2 Hs2. destruct (scan_fraction s2) as [frac s3] eqn:F.
      apply scan_fraction_length in F.
      destruct (scan_exponent s3) as [ex s4] eqn:X.
      apply scan_exponent_length in X.
      destruct (nonempty frac || _); intros [= _ <-]; lia. }
    destruct (take_char "0" s1) as [r0 |] eqn:T0.
    - apply take_char_length in T0. intros H.
      apply (T "0" r0 ltac:(lia) H).
    - destruct (span is_digit s1) as [ds r0] eqn:E.
      apply span_length in E. destruct ds as [| c ds]; [discriminate |].
      cbn [nonempty]. cbn in E. intros H.
      apply (T (String c ds) r0 ltac:(lia) H). }
  destruct (take_char "-" s) as [r0 |] eqn:T.
  - apply take_char_length in T. intros H. apply (G true r0 ltac:(lia) H).
  - intros H. apply (G false s ltac:(lia) H).
Qed.

Lemma scan_constant_length s v r :
  scan_constant s = Parsed v r -> (String.length r < String.length s)%nat.
Proof.
  unfold scan_constant.
  repeat match goal with
         | |- context [strip_prefix ?p s] =>
             let E := fresh "E" in
             destruct (strip_prefix p s) eqn:E;
             [ apply strip_prefix_length in E; cbn in E;
               intros [= _ <-]; lia | clear E ]
         | |- context [scan_number s] =>
             let E := fresh "E" in
             destruct (scan_number s) as [[? ?] |] eqn:E;
             [ apply scan_number_length in E; intros [= _ <-]; lia | clear E ]
         end.
  discriminate.
Qed.

Lemma scan_constant_fuel s : scan_constant s <> OutOfFuel.
Proof.
  unfold scan_constant.
  repeat match goal with
         | |- context [match ?x with _ => _ end] => destruct x
         end; discriminate.
Qed.

(** With fuel above twice the length of the text, the three mutually
    recursive functions give a verdict, and a value consumes text. *)
Lemma parse_fuel n :
  (forall s, (2 * String.length s + 1 <= n)%nat ->
     parse_value n s <> OutOfFuel
     /\ forall v r, parse_value n s = Parsed v r ->
                    (String.length r < String.length s)%nat)
  /\ (forall acc s, (2 * String.length s + 2 <= n)%nat ->
        parse_elements n acc s <> OutOfFuel)
  /\ (forall acc s, (2 * String.length s + 2 <= n)%nat ->
        parse_members n acc s <> OutOfFuel).
Proof.
  assert (W : forall n acc acc' s,
             (forall v r, parse_elements n acc s = Parsed v r ->
                          (String.length r < String.length s)%nat)
             /\ (forall v r, parse_members n acc' s = Parsed v r ->
                             (String.length r < String.length s)%nat)
             /\ (forall v r, parse_value n s = Parsed v r ->
                             (String.length r < String.length s)%nat)).
  { clear n. intros n. induction n as [| n IH]; intros acc acc' s;
      [repeat split; intros; discriminate |].
    assert (IHe := fun acc s => proj1 (IH acc [] s)).
    assert (IHm := fun acc' s => proj1 (proj2 (IH [] acc' s))).
    assert (IHv := fun s => proj2 (proj2 (IH [] [] s))).
    clear IH. repeat split; intros v r; cbn [parse_value parse_elements
                                              parse_members].
    - destruct (parse_value n s) as [v0 r0 | |] eqn:E; try discriminate.
      apply IHv in E. pose proof (skip_ws_length r0).
      destruct (take_char "," (skip_ws r0)) as [r1 |] eqn:T1.
      + apply take_char_length in T1. pose proof (skip_ws_length r1).
        intros H1. apply IHe in H1. lia.
      + destruct (take_char "]" (skip_ws r0)) as [r1 |] eqn:T2;
          [| discriminate].
        apply take_char_length in T2. intros [= _ <-]. lia.
    - destruct (take_char dquote s) as [r0 |] eqn:T0; [| discriminate].
      apply take_char_length in T0.
      destruct (scan_string r0) as [[k r1] |] eqn:S1; [| discriminate].
      apply scan_string_length in S1. pose proof (skip_ws_length r1).
      destruct (take_char ":" (skip_ws r1)) as [r2 |] eqn:T2;
        [| discriminate].
      apply take_char_length in T2. pose proof (skip_ws_length r2).
      destruct (parse_value n (skip_ws r2)) as [v0 r3 | |] eqn:E;
        try discriminate.
      apply IHv in E. pose proof (skip_ws_length r3).
      destruct (take_char "," (skip_ws r3)) as [r4 |] eqn:T3.
      + apply take_char_length in T3. pose proof (skip_ws_length r4).
        intros H4. apply IHm in H4. lia.
      + destruct (take_char "}" (skip_ws r3)) as [r4 |] eqn:T4;
          [| discriminate].
        apply take_char_length in T4. intros [= _ <-]. lia.
    - destruct s as [| c s0]; [discriminate |].
      pose proof (skip_ws_length s0).
      destruct (Ascii.eqb c dquote).
      { destruct (scan_string s0) as [[t r0] |] eqn:S1; [| discriminate].
        apply scan_string_length in S1. intros [= _ <-]. cbn. lia. }
      destruct (Ascii.eqb c "{").
      { destruct (take_char "}" (skip_ws s0)) as [r0 |] eqn:T1.
        - apply take_char_length in T1. intros [= _ <-]. cbn. lia.
        - intros H1. apply IHm in H1. cbn. lia. }
      destruct (Ascii.eqb c "[").
      { destruct (take_char "]" (skip_ws s0)) as [r0 |] eqn:T1.
        - apply take_char_length in T1. intros [= _ <-]. cbn. lia.
        - intros H1. apply IHe in H1. cbn. lia. }
      apply scan_constant_length. }
  induction n as [| n IH].
  { repeat split; intros; lia. }
  destruct IH as (IHv & IHe & IHm).
  split; [| split].
  - intros s Hs. split; [| apply (W (S n) [] [] s)].
    cbn [parse_value]. destruct s as [| c s0]; [discriminate |].
    pose proof (skip_ws_length s0). cbn in Hs.
    destruct (Ascii.eqb c dquote).
    { destruct (scan_string s0) as [[t r0] |]; discriminate. }
    destruct (Ascii.eqb c "{").
    { destruct (take_char "}" (skip_ws s0)); [discriminate |].
      apply IHm. lia. }
    destruct (Ascii.eqb c "[").
    { destruct (take_char "]" (skip_ws s0)); [discriminate |].
      apply IHe. lia. }
    apply scan_constant_fuel.
  - intros acc s Hs. cbn [parse_elements].
    destruct (parse_value n s) as [v0 r0 | |] eqn:E; [| discriminate |].
    + apply (W n [] [] s) in E. pose proof (skip_ws_length r0).
      destruct (take_char "," (skip_ws r0)) as [r1 |] eqn:T1.
      * apply take_char_length in T1. pose proof (skip_ws_length r1).
        apply IHe. lia.
      * destruct (take_char "]" (skip_ws r0)); discriminate.
    + exfalso. apply (proj1 (IHv s ltac:(lia))). exact E.
  - intros acc s Hs. cbn [parse_members].
    destruct (take_char dquote s) as [r0 |] eqn:T0; [| discriminate].
    apply take_char_length in T0.
    destruct (scan_string r0) as [[k r1] |] eqn:S1; [| discriminate].
    apply scan_string_length in S1. pose proof (skip_ws_length r1).
    destruct (take_char ":" (skip_ws r1)) as [r2 |] eqn:T2; [| discriminate].
    apply take_char_length in T2. pose proof (skip_ws_length r2).
    destruct (parse_value n (skip_ws r2)) as [v0 r3 | |] eqn:E;
      [| discriminate |].
    + apply (W n [] [] _) in E. pose proof (skip_ws_length r3).
      destruct (take_char "," (skip_ws r3)) as [r4 |] eqn:T3.
      * apply take_char_length in T3. pose proof (skip_ws_length r4).
        apply IHm. lia.
      * destruct (take_char "}" (skip_ws r3)); discriminate.
    + exfalso. apply (proj1 (IHv (skip_ws r2) ltac:(lia))). exact E.
Qed.

(** [json_loads] gives [None] only for a text that is not a JSON
    document. *)
Lemma json_loads_fuel s :
  parse_value (json_loads_fuel_of s) (skip_ws s) <> OutOfFuel.
Proof.
  apply (proj1 (parse_fuel (json_loads_fuel_of s))).
  unfold json_loads_fuel_of. pose proof (skip_ws_length s). lia.
Qed.

(** ** Encoding a text and decoding it again *)

Lemma scan_escape_char c tail :
  is_ascii c = true ->
  scan_string (escape_char c ++ tail) = prepend (str1 c) (scan_string tail).
Proof.
  destruct c as [b0 b1 b2 b3 b4 b5 b6 b7].
  destruct b7; [destruct b0, b1, b2, b3, b4, b5, b6; discriminate |].
  intros _.
  destruct b0, b1, b2, b3, b4, b5, b6; reflexivity.
Qed.

Lemma scan_escape_ascii u rest :
  all_chars is_ascii u = true ->
  scan_string (escape_ascii u ++ String dquote rest) = Some (u, rest).
Proof.
  induction u as [| c u IH]; intros H.
  - cbn [escape_ascii append scan_string]. now rewrite Ascii.eqb_refl.
  - rewrite all_chars_cons in H. apply andb_true_iff in H as [Hc Hu].
    cbn [escape_ascii].
    assert (L : (code c <? 192) = true).
    { unfold is_ascii in Hc. apply Z.ltb_lt in Hc. apply Z.ltb_lt. lia. }
    rewrite L. cbv zeta.
    rewrite append_assoc, (scan_escape_char c _ Hc), (IH Hu). reflexivity.
Qed.

(** The parameters update_plane_issue builds for the resolver decode to the
    issue code it was given. *)
Lemma issue_code_params_text u :
  json_dumps (JObject [("issue_code", JString u)])
  = String "{" (String dquote
      ("issue_code" ++ String dquote
         (String ":" (String " "
            (String dquote (escape_ascii u ++ String dquote "}")))))).
Proof.
  cbn [json_dumps map fst snd String.concat]. unfold encode_string, str1.
  replace (escape_ascii "issue_code") with "issue_code"
    by (vm_compute; reflexivity).
  cbn [append]. rewrite !append_assoc. reflexivity.
Qed.

Lemma parse_issue_code_object n u :
  all_chars is_ascii u = true ->
  parse_value (S (S (S n)))
    (String "{" (String dquote
       ("issue_code" ++ String dquote
          (String ":" (String " "
             (String dquote (escape_ascii u ++ String dquote "}")))))))
  = Parsed (JObject [("issue_code", JString u)]) "".
Proof.
  intros H.
  assert (V : forall m r,
             parse_value (S m) (String "{" (String dquote r))
             = parse_members m [] (String dquote r)) by reflexivity.
  assert (M : forall m r,
             parse_members (S m) [] (String dquote r)
             = match scan_string r with
               | Some (k, r1) =>
                   match take_char ":" (skip_ws r1) with
                   | Some r2 =>
                       match parse_value m (skip_ws r2) with
                       | Parsed v r3 =>
                           match take_char "," (skip_ws r3) with
                           | Some r4 =>
                               parse_members m (Dict.set k v []) (skip_ws r4)
                           | None =>
                               match take_char "}" (skip_ws r3) with
                               | Some r4 =>
                                   Parsed (JObject (Dict.set k v [])) r4
                               | None => Invalid
                               end
                           end
                       | Invalid => Invalid
                       | OutOfFuel => OutOfFuel
                       end
                   | None => Invalid
                   end
               | None => Invalid
               end) by reflexivity.
  assert (S1 : forall m r,
             parse_value (S m) (String dquote r)
             = match scan_string r with
               | Some (t, r') => Parsed (JString t) r'
               | None => Invalid
               end) by reflexivity.
  rewrite V, M, (scan_escape_ascii "issue_code") by reflexivity.
  change (skip_ws (String ":" ?r)) with (String ":" r).
  change (take_char ":" (String ":" ?r)) with (Some r).
  cbv iota.
  change (skip_ws (String " " (String dquote ?r))) with (String dquote r).
  rewrite S1, (scan_escape_ascii u "}" H). reflexivity.
Qed.

Lemma issue_code_params_decode u :
  all_chars is_ascii u = true ->
  load_params (json_dumps (JObject [("issue_code", JString u)]))
  = Some (JObject [("issue_code", JString u)]).
Proof.
  intros H. rewrite issue_code_params_text.
  unfold load_params, json_loads. cbn [nonempty].
  change (skip_ws (String "{" ?r)) with (String "{" r).
  match goal with
  | |- context [json_loads_fuel_of (String ?a (String ?b ?s))] =>
      assert (F : exists n,
                 json_loads_fuel_of (String a (String b s)) = S (S (S n)))
  end.
  { match goal with
    | |- exists n, json_loads_fuel_of (String _ (String _ ?s)) = _ =>
        exists (2 * String.length s + 2)%nat
    end.
    unfold json_loads_fuel_of. cbn [String.length]. lia. }
  destruct F as [n ->].
  now rewrite (parse_issue_code_object n u H).
Qed.

(** ** Steps of a computation *)

Lemma bind_lift_ok {A B} (a : A) (k : A -> io B) srv log :
  bind (lift (Ok a)) k srv log = k a srv log.
Proof. reflexivity. Qed.

Lemma bind_replied {B} (req : request) (k : response -> io B) srv log r :
  srv log req = Replied r ->
  bind (requests_call req) k srv log = k r srv (log ++ [req])%list.
Proof. intros H. unfold bind, requests_call. now rewrite H. Qed.

Lemma bind_unreachable {B} (req : request) (k : response -> io B) srv log err :
  srv log req = Unreachable err ->
  bind (requests_call req) k srv log
  = (Raise (Exn TransportError err), (log ++ [req])%list).
Proof. intros H. unfold bind, requests_call. now rewrite H. Qed.

Lemma try_except_ok (m : io string) (srv : server) (log : list request) :
  exists s, try_except m srv log = (Ok s, snd (m srv log)).
Proof.
  unfold try_except. destruct (m srv log) as [[s | [c msg]] log']; eauto.
Qed.

Section Ensures.
Context {A B : Type} (Q : request -> Prop).

Lemma ensures_ret (P : A -> Prop) (a : A) : P a -> ensures Q P (ret a).
Proof.
  intros H srv log. exists []. cbn. rewrite app_nil_r. auto.
Qed.

Lemma ensures_lift (P : A -> Prop) (o : outcome A) :
  (forall a, o = Ok a -> P a) -> ensures Q P (lift o).
Proof.
  intros H srv log. exists []. cbn. rewrite app_nil_r.
  repeat split; auto. destruct o; auto.
Qed.

Lemma ensures_bind (P : B -> Prop) (R : A -> Prop) (m : io A)
      (k : A -> io B) :
  ensures Q R m -> (forall a, R a -> ensures Q P (k a)) ->
  ensures Q P (bind m k).
Proof.
  intros Hm Hk srv log. destruct (Hm srv log) as (e1 & Hl & Hq & Hr).
  unfold bind. destruct (m srv log) as [[a | e] log1]; cbn in *.
  - subst log1. destruct (Hk a Hr srv (log ++ e1)%list) as (e2 & Hl2 & Hq2 & Hr2).
    exists (e1 ++ e2)%list. rewrite Hl2, app_assoc.
    repeat split; auto. apply Forall_app; auto.
  - exists e1. auto.
Qed.

Lemma ensures_bind_lift (P : B -> Prop) (o : outcome A) (k : A -> io B) :
  (forall a, o = Ok a -> ensures Q P (k a)) ->
  ensures Q P (bind (lift o) k).
Proof.
  intros H. apply ensures_bind with (R := fun a => o = Ok a); auto.
  apply ensures_lift; auto.
Qed.

Lemma ensures_weaken (P P' : A -> Prop) (m : io A) :
  ensures Q P m -> (forall a, P a -> P' a) -> ensures Q P' m.
Proof.
  intros H HP srv log. destruct (H srv log) as (e & Hl & Hq & Hr).
  exists e. repeat split; auto. destruct (fst (m srv log)); auto.
Qed.
End Ensures.

Lemma ensures_call (Q : request -> Prop) (req : request) :
  Q req -> ensures Q (@any_result response) (requests_call req).
Proof.
  intros H srv log. exists [req]. unfold requests_call.
  destruct (srv log req); cbn; repeat split; auto.
Qed.

Lemma ensures_bind_call {B} (Q : request -> Prop) (P : B -> Prop)
      (req : request) (k : response -> io B) :
  Q req -> (forall r, ensures Q P (k r)) ->
  ensures Q P (bind (requests_call req) k).
Proof.
  intros H Hk. apply ensures_bind with (R := any_result); auto.
  apply ensures_call; auto.
Qed.

Lemma ensures_try_except (Q : request -> Prop) (P : string -> Prop)
      (m : io string) :
  ensures Q P m ->
  (forall msg, P ("Error: Network error - " ++ msg)) ->
  (forall msg, P ("Error: Unexpected error - " ++ msg)) ->
  ensures Q P (try_except m).
Proof.
  intros H Hn Hu srv log. destruct (H srv log) as (e & Hl & Hq & Hr).
  exists e. unfold try_except.
  destruct (m srv log) as [[s | [c msg]] log1]; cbn in *; repeat split; auto.
  destruct (is_request_exception c); cbn; auto.
Qed.

Lemma ensures_try_except_exception (Q : request -> Prop)
      (P : string -> Prop) (m : io string) :
  ensures Q P m ->
  (forall msg, P ("Error: Unexpected error - " ++ msg)) ->
  ensures Q P (try_except_exception m).
Proof.
  intros H Hu srv log. destruct (H srv log) as (e & Hl & Hq & Hr).
  exists e. unfold try_except_exception.
  destruct (m srv log) as [[s | [c msg]] log1]; cbn in *; repeat split; auto.
Qed.

Lemma ensures_try_request {A} (Q : request -> Prop) (m : io A) :
  ensures Q any_result m -> ensures Q any_result (try_request m).
Proof.
  intros H srv log. destruct (H srv log) as (e & Hl & Hq & Hr).
  exists e. unfold try_request.
  destruct (m srv log) as [[s | [c msg]] log1]; cbn in *.
  - repeat split; auto.
  - destruct (is_request_exception c); cbn; repeat split; auto.
Qed.

(** A computation under its handlers never raises. *)
Lemma ensures_ok (Q : request -> Prop) (P : string -> Prop) (m : io string)
      srv log :
  ensures Q P (try_except m) ->
  exists s extra,
    try_except m srv log = (Ok s, (log ++ extra)%list)
    /\ Forall Q extra /\ P s.
Proof.
  intros H. destruct (H srv log) as (e & Hl & Hq & Hr).
  destruct (try_except_ok m srv log) as (s & Hs).
  rewrite Hs in *. cbn in *. exists s, e. rewrite Hl. auto.
Qed.

(** ** Every result is an error text or a regular answer *)

Ltac ensures_step :=
  lazymatch goal with
  | |- ensures _ _ (try_except _) =>
      apply ensures_try_except; [ | intros; left; reflexivity ..]
  | |- ensures _ _ (try_except_exception _) =>
      apply ensures_try_except_exception; [ | intros; left; reflexivity ]
  | |- ensures _ _ (ret _) => apply ensures_ret
  | |- ensures _ _ (lift _) => apply ensures_lift; intros ? ?
  | |- ensures _ _ (bind (lift _) _) => apply ensures_bind_lift; intros ? ?
  | |- ensures _ _ (bind (requests_call _) _) =>
      apply ensures_bind_call; [ | intros ? ]
  | |- ensures _ _ (if ?b then _ else _) => destruct b eqn:?
  | |- ensures _ _ (match ?x with _ => _ end) => destruct x eqn:?
  end.

Ltac ensures_steps :=
  cbv zeta;
  unfold requests_get, requests_post, requests_patch, requests_delete;
  repeat (ensures_step; cbv zeta).

Lemma find_issue_regular project n issues r :
  find_issue project n issues = Ok (Some r) ->
  regular_result ResolveIssueCode r.
Proof.
  induction issues as [| i rest IH]; cbn; [discriminate |].
  destruct (py_get i "sequence_id" JNull) as [seq |]; cbn; [| discriminate].
  destruct (py_eq seq (JInt n)); [| exact IH].
  destruct (py_getitem i "id"); cbn; [| discriminate].
  destruct (py_getitem project "id"); cbn; [| discriminate].
  destruct (py_getitem i "name"); cbn; [| discriminate].
  destruct (py_get i "state" JNull); cbn; [| discriminate].
  intros [= <-]. now eexists _, _, _, _.
Qed.

Lemma issue_lookup_answer env project_code sequence_id :
  ensures any_request (answer ResolveIssueCode)
          (issue_lookup env project_code sequence_id).
Proof.
  unfold issue_lookup. ensures_steps;
    try exact I; try (left; reflexivity).
  right. eapply find_issue_regular; eauto.
Qed.

Lemma get_plane_issue_id_answer env params_json :
  ensures any_request (answer ResolveIssueCode)
          (get_plane_issue_id env params_json).
Proof.
  unfold get_plane_issue_id. ensures_steps;
    try exact I; try (left; reflexivity).
  apply issue_lookup_answer.
Qed.

Lemma format_listing_prefix project issues text :
  format_listing project issues = Ok text ->
  starts_with "Issues in " text = true.
Proof.
  unfold format_listing.
  destruct (py_getitem project "name"); cbn; [| discriminate].
  destruct (py_iter issues); cbn; [| discriminate].
  destruct (map_raising format_issue a0); cbn; [| discriminate].
  intros [= <-]. destruct a1; reflexivity.
Qed.

Lemma update_plane_issue_send_answer env params :
  ensures any_request (answer UpdateIssue) (update_plane_issue_send env params).
Proof.
  unfold update_plane_issue_send. ensures_steps;
    try exact I; try (left; reflexivity); right; reflexivity.
Qed.

Lemma update_plane_issue_answer env params_json :
  ensures any_request (answer UpdateIssue) (update_plane_issue env params_json).
Proof.
  unfold update_plane_issue. ensures_steps;
    try exact I; try (left; reflexivity);
    try apply update_plane_issue_send_answer.
  all: eapply ensures_bind;
    [ apply get_plane_issue_id_answer | intros res _; ensures_steps ];
    try (left; reflexivity); apply update_plane_issue_send_answer.
Qed.

Lemma create_plane_issue_answer env params_json :
  ensures any_request (answer CreateIssue) (create_plane_issue env params_json).
Proof.
  unfold create_plane_issue. ensures_steps;
    try exact I; try (left; reflexivity); right; reflexivity.
Qed.

Lemma delete_plane_project_answer env params_json :
  ensures any_request (answer DeleteProject)
          (delete_plane_project env params_json).
Proof.
  unfold delete_plane_project. ensures_steps;
    try exact I; try (left; reflexivity); right; reflexivity.
Qed.

Lemma list_plane_issues_answer env params_json :
  ensures any_request (answer ListIssues) (list_plane_issues env params_json).
Proof.
  unfold list_plane_issues. ensures_steps;
    try exact I; try (left; reflexivity).
  - right. left. reflexivity.
  - right. right. left. reflexivity.
  - right. right. right. eapply format_listing_prefix; eauto.
Qed.

Lemma list_plane_projects_answer env params_json :
  ensures any_request (answer ListProjects)
          (list_plane_projects env params_json).
Proof.
  unfold list_plane_projects. ensures_steps;
    try exact I; try (left; reflexivity); right; reflexivity.
Qed.

Lemma create_plane_project_answer env params_json :
  ensures any_request (answer CreateProject)
          (create_plane_project env params_json).
Proof.
  unfold create_plane_project. ensures_steps;
    try exact I; try (left; reflexivity).
  eapply ensures_bind.
  - apply ensures_try_request. ensures_steps; exact I.
  - intros [msg | response] _; ensures_steps;
      try (left; reflexivity); right; reflexivity.
Qed.

Lemma operation_answer (op : operation) env params_json :
  ensures any_request (answer op) (run_operation op env params_json).
Proof.
  destruct op; cbn.
  - apply create_plane_project_answer.
  - apply delete_plane_project_answer.
  - apply list_plane_projects_answer.
  - apply create_plane_issue_answer.
  - apply list_plane_issues_answer.
  - apply update_plane_issue_answer.
  - apply get_plane_issue_id_answer.
Qed.

Lemma try_except_exception_ok (m : io string) srv log :
  exists s, try_except_exception m srv log = (Ok s, snd (m srv log)).
Proof.
  unfold try_except_exception.
  destruct (m srv log) as [[s | [c msg]] log']; eauto.
Qed.

Lemma operation_ok (op : operation) env params_json srv log :
  exists s log', run_operation op env params_json srv log = (Ok s, log').
Proof.
  destruct op; cbn;
    match goal with
    | |- exists _ _, ?f _ _ _ _ = _ => unfold f
    end;
    match goal with
    | |- exists _ _, try_except ?m _ _ = _ =>
        destruct (try_except_ok m srv log) as (s & ->); eauto
    | |- exists _ _, try_except_exception ?m _ _ = _ =>
        destruct (try_except_exception_ok m srv log) as (s & ->); eauto
    end.
Qed.

(** C3.  Each of the seven operations, for every parameter text and every
    server (error statuses, bodies that are not JSON and unreachable servers
    included), returns a string and raises nothing; the string starts with
    "Error: " unless it is the regular answer of the operation (for the
    resolver, the JSON object of the issue found). *)
Theorem operations_return_strings (op : operation) (env : environ)
        (params_json : string) (srv : server) (log : list request) :
  exists s extra,
    run_operation op env params_json srv log = (Ok s, (log ++ extra)%list)
    /\ (is_error s \/ regular_result op s).
Proof.
  destruct (operation_ok op env params_json srv log) as (s & log' & E).
  destruct (operation_answer op env params_json srv log)
    as (extra & Hl & _ & Hr).
  rewrite E in Hl, Hr. cbn in Hl, Hr. subst log'. now exists s, extra.
Qed.

(** ** Parameters that are not JSON *)

Lemma load_params_invalid params_json :
  params_json <> "" -> json_loads params_json = None ->
  load_params params_json = None.
Proof.
  intros Hne H. unfold load_params. destruct params_json; [easy | exact H].
Qed.

Lemma list_plane_projects_calls env params_json srv log :
  exists s,
    list_plane_projects env params_json srv log
    = (Ok s, (log ++ [list_projects_request env])%list).
Proof.
  unfold list_plane_projects.
  match goal with
  | |- exists _, try_except ?m _ _ = _ =>
      destruct (try_except_ok m srv log) as (s & ->); exists s; f_equal
  end.
  unfold bind, requests_get, requests_call.
  fold (list_projects_request env).
  destruct (srv log (list_projects_request env)) as [err | r]; cbn;
    [reflexivity |].
  destruct (status_code r =? 200); [| reflexivity].
  unfold lift.
  destruct (response_json r) as [page |]; [| reflexivity].
  destruct (py_get page "results" (JArray [])) as [projects |]; [| reflexivity].
  destruct (py_iter projects) as [items |]; [| reflexivity].
  destruct (map_raising format_project items); reflexivity.
Qed.

(** C4, amended.  For every non-empty parameter text that [json.loads]
    rejects, each operation other than list_plane_projects returns
    "Error: Invalid JSON parameters" and makes no HTTP call.  The empty text
    is read as the empty object, so these six operations answer it with
    their first missing-parameter error, again without HTTP call.
    list_plane_projects does not read its parameter: it makes its GET
    whatever the text. *)
Theorem invalid_json_parameters (env : environ) (params_json : string)
        (srv : server) (log : list request) :
  params_json <> "" -> json_loads params_json = None ->
  (forall op, op <> ListProjects ->
     run_operation op env params_json srv log
     = (Ok "Error: Invalid JSON parameters", log)
     /\ run_operation op env "" srv log = (Ok (first_required op), log))
  /\ exists s,
       list_plane_projects env params_json srv log
       = (Ok s, (log ++ [list_projects_request env])%list).
Proof.
  intros Hne Hj. pose proof (load_params_invalid _ Hne Hj) as Hl. split.
  - intros op Hop.
    destruct op; try congruence; cbn;
      match goal with
      | |- ?f _ _ _ _ = _ /\ _ => unfold f
      end;
      unfold try_except, try_except_exception; rewrite Hl; split; reflexivity.
  - apply list_plane_projects_calls.
Qed.

Lemma invalid_json_parameters_witness :
  "{" <> "" /\ json_loads "{" = None
  /\ delete_plane_project Sample.env "{" Sample.paged_server []
     = (Ok "Error: Invalid JSON parameters", []).
Proof.
  assert (H1 : "{" <> "") by discriminate.
  assert (H2 : json_loads "{" = None) by reflexivity.
  split; [exact H1 | split; [exact H2 |]].
  apply (proj1 (invalid_json_parameters Sample.env "{" Sample.paged_server []
                  H1 H2) DeleteProject).
  discriminate.
Defined.

(** C4 as stated fails for list_plane_projects: the text is not JSON, yet
    the operation makes its GET and answers with the project list. *)
Lemma invalid_json_list_projects_counterexample :
  json_loads "{" = None
  /\ list_plane_projects Sample.env "{" Sample.paged_server []
     = (Ok ("Projects:" ++ str1 newline ++ "Project OPS (ID: p-0)"
            ++ str1 newline ++ "Project clt (ID: p-1)"
            ++ str1 newline ++ "Project CLT (ID: p-2)"),
        [list_projects_request Sample.env]).
Proof. split; reflexivity. Qed.

(** ** Deleting a project without confirmation *)

(** C7, amended.  When the parameters carry no truthy "confirm" (they
    are not JSON, or not an object, or an object without such a key), no
    HTTP request is made, neither the GET nor the DELETE.  When they are an
    object, the result is the confirmation-required error if "project_id"
    is truthy, and "Error: Project ID is required", the check made first, if
    it is not. *)
Theorem delete_requires_confirmation (env : environ) (params_json : string)
        (srv : server) (log : list request) :
  (forall d, load_params params_json = Some (JObject d) ->
             truthy (get_or d "confirm" JNull) = false) ->
  snd (delete_plane_project env params_json srv log) = log
  /\ forall d, load_params params_json = Some (JObject d) ->
       fst (delete_plane_project env params_json srv log)
       = Ok (if truthy (get_or d "project_id" JNull)
             then confirmation_required
             else "Error: Project ID is required").
Proof.
  intros Hc. unfold delete_plane_project, try_except.
  destruct (load_params params_json) as [[| | | | | | d] |] eqn:Hp;
    try (split; [reflexivity | intros d' [=]]).
  specialize (Hc d eq_refl). cbn [as_dict]. rewrite bind_lift_ok.
  destruct (truthy (get_or d "project_id" JNull)) eqn:Hpid; cbn [negb].
  - rewrite Hc. split; [reflexivity |]. intros d' [= <-]. now rewrite Hpid.
  - split; [reflexivity |]. intros d' [= <-]. now rewrite Hpid.
Qed.

Lemma delete_requires_confirmation_witness :
  snd (delete_plane_project Sample.env
         (q "{'project_id': 'p-1', 'confirm': false}") Sample.paged_server [])
  = []
  /\ fst (delete_plane_project Sample.env
            (q "{'project_id': 'p-1', 'confirm': false}")
            Sample.paged_server [])
     = Ok confirmation_required.
Proof.
  assert (H : forall d,
             load_params (q "{'project_id': 'p-1', 'confirm': false}")
             = Some (JObject d) ->
             truthy (get_or d "confirm" JNull) = false).
  { intros d [= <-]. reflexivity. }
  destruct (delete_requires_confirmation Sample.env
              (q "{'project_id': 'p-1', 'confirm': false}")
              Sample.paged_server [] H) as [Hlog Hres].
  split; [exact Hlog |].
  exact (Hres [("project_id", JString "p-1"); ("confirm", JBool false)]
              eq_refl).
Defined.

(** C7 as stated fails when the project identifier is missing too. *)
Lemma delete_without_project_id_counterexample :
  load_params (q "{}") = Some (JObject [])
  /\ truthy (get_or [] "confirm" JNull) = false
  /\ delete_plane_project Sample.env (q "{}") Sample.paged_server []
     = (Ok "Error: Project ID is required", [])
  /\ "Error: Project ID is required" <> confirmation_required.
Proof. repeat split; try reflexivity. discriminate. Qed.

(** ** Dictionaries *)

Lemma get_or_get d key v default :
  Dict.get key d = Some v -> get_or d key default = v.
Proof. unfold get_or. now intros ->. Qed.

Lemma get_remove_other (d : list (string * json)) k k' :
  k <> k' -> Dict.get k (Dict.remove k' d) = Dict.get k d.
Proof.
  intros Hne. induction d as [| [k0 v0] d IH]; cbn; [reflexivity |].
  destruct (String.eqb_spec k' k0) as [-> | Hk].
  - rewrite IH. destruct (String.eqb_spec k k0); [congruence | reflexivity].
  - cbn. now rewrite IH.
Qed.

Lemma get_remove_same (d : list (string * json)) k :
  Dict.get k (Dict.remove k d) = None.
Proof.
  induction d as [| [k0 v0] d IH]; cbn; [reflexivity |].
  destruct (String.eqb_spec k k0) as [-> | Hk]; [exact IH |].
  cbn. destruct (String.eqb_spec k k0); [congruence | exact IH].
Qed.

Lemma get_set_same (d : list (string * json)) k v :
  Dict.get k (Dict.set k v d) = Some v.
Proof.
  induction d as [| [k0 v0] d IH]; cbn.
  - now rewrite String.eqb_refl.
  - destruct (String.eqb_spec k k0) as [-> | Hk]; cbn.
    + now rewrite String.eqb_refl.
    + destruct (String.eqb_spec k k0); [congruence | exact IH].
Qed.

Lemma get_set_other (d : list (string * json)) k k' v :
  k <> k' -> Dict.get k (Dict.set k' v d) = Dict.get k d.
Proof.
  intros Hne. induction d as [| [k0 v0] d IH]; cbn.
  - destruct (String.eqb_spec k k'); [congruence | reflexivity].
  - destruct (String.eqb_spec k' k0) as [-> | Hk]; cbn.
    + destruct (String.eqb_spec k k0); [congruence | reflexivity].
    + now rewrite IH.
Qed.

Lemma remove_set_same (d : list (string * json)) k v :
  Dict.remove k (Dict.set k v d) = Dict.remove k d.
Proof.
  induction d as [| [k0 v0] d IH]; cbn.
  - now rewrite String.eqb_refl.
  - destruct (String.eqb_spec k k0) as [-> | Hk]; cbn.
    + now rewrite String.eqb_refl.
    + destruct (String.eqb_spec k k0); [congruence | now rewrite IH].
Qed.

Lemma remove_set_other (d : list (string * json)) k k' v :
  k <> k' ->
  Dict.remove k (Dict.set k' v d) = Dict.set k' v (Dict.remove k d).
Proof.
  intros Hne. induction d as [| [k0 v0] d IH]; cbn.
  - destruct (String.eqb_spec k k'); [congruence | reflexivity].
  - destruct (String.eqb_spec k' k0) as [-> | Hk']; cbn.
    + destruct (String.eqb_spec k k0); [congruence |]. cbn.
      now rewrite String.eqb_refl.
    + destruct (String.eqb_spec k k0) as [-> | Hk]; [exact IH |]. cbn.
      destruct (String.eqb_spec k' k0); [congruence | now rewrite IH].
Qed.

Lemma remove_all (d : list (string * json)) a b :
  (forall k, Dict.mem k d = true -> k = a \/ k = b) ->
  Dict.remove b (Dict.remove a d) = [].
Proof.
  induction d as [| [k0 v0] d IH]; intros H; [reflexivity |].
  assert (H0 : k0 = a \/ k0 = b).
  { apply H. unfold Dict.mem. cbn. now rewrite String.eqb_refl. }
  assert (Hd : Dict.remove b (Dict.remove a d) = []).
  { apply IH. intros k Hk. apply H. unfold Dict.mem in *. cbn.
    destruct (String.eqb k k0); [reflexivity | exact Hk]. }
  cbn. destruct (String.eqb_spec a k0) as [-> | Ha]; [exact Hd |].
  cbn. destruct (String.eqb_spec b k0) as [-> | Hb]; [exact Hd |].
  destruct H0; congruence.
Qed.

(** ** The UUID test *)

Lemma take_class_app p n a r :
  String.length a = n -> all_chars p a = true ->
  take_class p n (a ++ r) = Some r.
Proof.
  revert n. induction a as [| c a IH]; intros n Hn Hp; subst n; cbn.
  - reflexivity.
  - rewrite all_chars_cons in Hp. apply andb_true_iff in Hp as [-> Hp].
    now apply IH.
Qed.

Lemma match_uuid_well_formed u : well_formed_uuid u -> match_uuid u = true.
Proof.
  intros (a & b & c & d & e & -> & [La Ha] & [Lb Hb] & [Lc Hc] & [Ld Hd]
          & [Le He]).
  unfold match_uuid.
  rewrite <- (append_nil_r e).
  repeat first
    [ rewrite take_class_app by assumption
    | rewrite Ascii.eqb_refl
    | progress cbn [and_then append take_char] ].
  reflexivity.
Qed.

Lemma take_class_inv p n s r :
  take_class p n s = Some r ->
  exists a, s = a ++ r /\ String.length a = n /\ all_chars p a = true.
Proof.
  revert s. induction n as [| n IH]; intros s; cbn.
  - intros [= ->]. now exists "".
  - destruct s as [| c s]; [discriminate |].
    destruct (p c) eqn:Hc; [| discriminate].
    intros H. destruct (IH s H) as (a & -> & <- & Ha).
    exists (String c a). rewrite all_chars_cons, Hc. auto.
Qed.

Lemma take_char_inv c s r : take_char c s = Some r -> s = String c r.
Proof.
  destruct s as [| c' s]; cbn; [discriminate |].
  destruct (Ascii.eqb_spec c c') as [-> |]; [now intros [= ->] | discriminate].
Qed.

(** What the pattern accepts: a UUID, or a UUID and one newline. *)
Lemma match_uuid_inv u :
  match_uuid u = true ->
  well_formed_uuid u
  \/ exists w, well_formed_uuid w /\ u = w ++ str1 newline.
Proof.
  unfold match_uuid.
  destruct (take_class is_lower_hex 8 u) as [r1 |] eqn:A; [| discriminate].
  apply take_class_inv in A as (a & -> & La & Ha). cbn [and_then].
  destruct (take_char "-" r1) as [r2 |] eqn:D1; [| discriminate].
  apply take_char_inv in D1 as ->. cbn [and_then].
  destruct (take_class is_lower_hex 4 r2) as [r3 |] eqn:B; [| discriminate].
  apply take_class_inv in B as (b & -> & Lb & Hb). cbn [and_then].
  destruct (take_char "-" r3) as [r4 |] eqn:D2; [| discriminate].
  apply take_char_inv in D2 as ->. cbn [and_then].
  destruct (take_class is_lower_hex 4 r4) as [r5 |] eqn:C; [| discriminate].
  apply take_class_inv in C as (c & -> & Lc & Hc). cbn [and_then].
  destruct (take_char "-" r5) as [r6 |] eqn:D3; [| discriminate].
  apply take_char_inv in D3 as ->. cbn [and_then].
  destruct (take_class is_lower_hex 4 r6) as [r7 |] eqn:D; [| discriminate].
  apply take_class_inv in D as (d & -> & Ld & Hd). cbn [and_then].
  destruct (take_char "-" r7) as [r8 |] eqn:D4; [| discriminate].
  apply take_char_inv in D4 as ->. cbn [and_then].
  destruct (take_class is_lower_hex 12 r8) as [r9 |] eqn:E; [| discriminate].
  apply take_class_inv in E as (e & -> & Le & He).
  assert (W : well_formed_uuid
                (a ++ "-" ++ b ++ "-" ++ c ++ "-" ++ d ++ "-" ++ e)).
  { exists a, b, c, d, e. repeat split; auto. }
  destruct r9 as [| ch [| ch' r]]; cbn [at_dollar]; try discriminate.
  - intros _. left. now rewrite append_nil_r.
  - intros H. apply Ascii.eqb_eq in H. subst ch. right.
    exists (a ++ "-" ++ b ++ "-" ++ c ++ "-" ++ d ++ "-" ++ e).
    split; [exact W |].
    now rewrite !append_assoc.
Qed.

Lemma well_formed_uuid_length u : well_formed_uuid u -> String.length u = 36%nat.
Proof.
  intros (a & b & c & d & e & -> & [La _] & [Lb _] & [Lc _] & [Ld _]
          & [Le _]).
  repeat (rewrite length_append; cbn [String.length]). lia.
Qed.

Lemma sample_uuid_well_formed : well_formed_uuid Sample.uuid.
Proof.
  exists "550e8400", "e29b", "41d4", "a716", "446655440000".
  repeat split; reflexivity.
Qed.

(** ** update_plane_issue: the two ways to the PATCH *)

Lemma json_loads_error res : is_error res -> json_loads res = None.
Proof.
  destruct res as [| c res]; [discriminate |]. unfold is_error.
  cbn [starts_with]. intros H. apply andb_true_iff in H as [Hc _].
  apply Ascii.eqb_eq in Hc. subst c.
  unfold json_loads, json_loads_fuel_of. rewrite Nat.add_1_r. reflexivity.
Qed.

Lemma match_uuid_nonempty u : match_uuid u = true -> nonempty u = true.
Proof. destruct u; [discriminate | reflexivity]. Qed.

Section Update.
Variables (env : environ) (params_json : string)
          (d : list (string * json)) (pid : json) (u : string).
Hypothesis Hparams : load_params params_json = Some (JObject d).
Hypothesis Hpid : Dict.get "project_id" d = Some pid.
Hypothesis Hpid_given : truthy pid = true.
Hypothesis Hiid : Dict.get "issue_id" d = Some (JString u).

(** The identifier passes the UUID test: the parameters are used as they
    are and the resolver is not called. *)
Lemma update_direct srv log :
  match_uuid u = true ->
  update_plane_issue env params_json srv log
  = try_except (update_plane_issue_send env d) srv log.
Proof.
  intros Hu. unfold update_plane_issue, try_except. rewrite Hparams.
  cbn [as_dict]. rewrite bind_lift_ok.
  rewrite (get_or_get _ _ _ _ Hpid), Hpid_given.
  rewrite (get_or_get _ _ _ _ Hiid). cbn [truthy negb].
  rewrite (match_uuid_nonempty _ Hu). cbn [negb].
  unfold dict_getitem. rewrite Hiid, bind_lift_ok.
  cbn [re_subject]. rewrite bind_lift_ok, Hu. reflexivity.
Qed.

(** The identifier fails the UUID test: the resolver is called with it,
    and its result decides. *)
Lemma update_resolving srv log :
  nonempty u = true -> match_uuid u = false ->
  update_plane_issue env params_json srv log
  = try_except
      (let! resolution_result :=
         get_plane_issue_id env
           (json_dumps (JObject [("issue_code", JString u)])) in
       match json_loads resolution_result with
       | Some resolution_data =>
           let! resolved :=
             lift (py_contains (JString "issue_id") resolution_data) in
           if resolved then
             let! new_issue_id :=
               lift (py_getitem resolution_data "issue_id") in
             let! new_project_id :=
               lift (py_getitem resolution_data "project_id") in
             update_plane_issue_send env
               (Dict.set "project_id" new_project_id
                  (Dict.set "issue_id" new_issue_id d))
           else ret (could_not_resolve (JString u) resolution_result)
       | None => ret (could_not_resolve (JString u) resolution_result)
       end) srv log.
Proof.
  intros Hne Hu. unfold update_plane_issue, try_except. rewrite Hparams.
  cbn [as_dict]. rewrite bind_lift_ok.
  rewrite (get_or_get _ _ _ _ Hpid), Hpid_given.
  rewrite (get_or_get _ _ _ _ Hiid). cbn [truthy negb].
  rewrite Hne. cbn [negb].
  unfold dict_getitem. rewrite Hiid, bind_lift_ok.
  cbn [re_subject]. rewrite bind_lift_ok, Hu. reflexivity.
Qed.

(** Resolution failed: the error names the code, and nothing is sent
    after the resolver's own requests. *)
Lemma update_unresolved srv log res log1 :
  nonempty u = true -> match_uuid u = false ->
  get_plane_issue_id env (json_dumps (JObject [("issue_code", JString u)]))
                     srv log = (Ok res, log1) ->
  is_error res ->
  update_plane_issue env params_json srv log
  = (Ok ("Error: Could not resolve issue code " ++ u
         ++ " to a UUID.  Details: " ++ res), log1).
Proof.
  intros Hne Hu Hres Herr. rewrite update_resolving by assumption.
  unfold try_except, bind. rewrite Hres, (json_loads_error _ Herr).
  reflexivity.
Qed.
End Update.

(** What is sent once the identifiers are settled. *)
Section Send.
Variables (env : environ) (d : list (string * json)) (pid iid : json).
Hypothesis Hpid : Dict.get "project_id" d = Some pid.
Hypothesis Hiid : Dict.get "issue_id" d = Some iid.

Lemma send_prefix srv log :
  update_plane_issue_send env d srv log
  = (if negb (truthy (JObject (update_body d)))
     then ret "Error: No update parameters provided"
     else
       let! response :=
         requests_call (patch_issue env pid iid (update_body d)) in
       if status_code response =? 200 then
         let! result := lift (response_json response) in
         let changes := change_list (update_body d) in
         let change_text :=
           match changes with
           | [] => ""
           | _ => " - " ++ String.concat ", " changes
           end in
         let! name := lift (py_getitem result "name") in
         let! seq := lift (py_getitem result "sequence_id") in
         ret ("Issue updated: " ++ py_str name ++ " (#" ++ py_str seq ++ ")"
              ++ change_text)
       else
         ret ("Error: API request failed with status code "
              ++ string_of_Z (status_code response))) srv log.
Proof.
  unfold update_plane_issue_send. cbv zeta.
  unfold dict_pop at 1. rewrite Hpid, bind_lift_ok.
  unfold dict_pop. rewrite get_remove_other, Hiid, bind_lift_ok
    by discriminate.
  fold (update_body d).
  destruct (negb (truthy (JObject (update_body d)))); [reflexivity |].
  unfold dict_getitem. rewrite Hpid, Hiid, !bind_lift_ok. reflexivity.
Qed.

Lemma send_nothing srv log :
  update_body d = [] ->
  update_plane_issue_send env d srv log
  = (Ok "Error: No update parameters provided", log).
Proof. intros H. rewrite send_prefix, H. reflexivity. Qed.

Lemma send_patch srv log :
  update_body d <> [] ->
  exists o,
    try_except (update_plane_issue_send env d) srv log
    = (Ok o, (log ++ [patch_issue env pid iid (update_body d)])%list).
Proof.
  intros H.
  destruct (try_except_ok (update_plane_issue_send env d) srv log)
    as (o & ->).
  exists o. f_equal. rewrite send_prefix.
  destruct (update_body d) as [| kv rest]; [congruence |]. cbn [truthy negb].
  unfold bind, requests_call.
  destruct (srv log _) as [err | r]; [reflexivity |].
  destruct (status_code r =? 200); [| reflexivity].
  unfold lift. destruct (response_json r) as [result |]; [| reflexivity].
  cbv zeta.
  destruct (py_getitem result "name"); [| reflexivity].
  destruct (py_getitem result "sequence_id"); reflexivity.
Qed.
End Send.

(** When the resolver's answer decodes to an object with the two
    identifiers, both replace the ones given before anything is sent. *)
Lemma update_resolved env params_json d pid u srv log res log1 o
      new_issue_id new_project_id :
  load_params params_json = Some (JObject d) ->
  Dict.get "project_id" d = Some pid -> truthy pid = true ->
  Dict.get "issue_id" d = Some (JString u) ->
  nonempty u = true -> match_uuid u = false ->
  get_plane_issue_id env (json_dumps (JObject [("issue_code", JString u)]))
                     srv log = (Ok res, log1) ->
  json_loads res = Some (JObject o) ->
  Dict.get "issue_id" o = Some new_issue_id ->
  Dict.get "project_id" o = Some new_project_id ->
  update_plane_issue env params_json srv log
  = try_except
      (update_plane_issue_send env
         (Dict.set "project_id" new_project_id
            (Dict.set "issue_id" new_issue_id d))) srv log1.
Proof.
  intros Hp Hpid Hgiven Hiid Hne Hu Hres Hload Hi Hpr.
  rewrite (update_resolving env params_json d pid u Hp Hpid Hgiven Hiid)
    by assumption.
  unfold try_except, bind. rewrite Hres, Hload. cbn [lift py_contains].
  unfold Dict.mem. rewrite Hi. cbn [py_getitem]. unfold dict_getitem.
  now rewrite Hi, Hpr.
Qed.

(** C10.  When the decoded parameters hold a well-formed UUID as
    "issue_id", a (truthy) "project_id" and no other key, update_plane_issue
    returns "Error: No update parameters provided" and makes no HTTP
    request. *)
Theorem update_without_fields (env : environ) (params_json : string)
        (d : list (string * json)) (pid : json) (u : string)
        (srv : server) (log : list request) :
  load_params params_json = Some (JObject d) ->
  Dict.get "project_id" d = Some pid -> truthy pid = true ->
  Dict.get "issue_id" d = Some (JString u) -> well_formed_uuid u ->
  (forall k, Dict.mem k d = true -> k = "project_id" \/ k = "issue_id") ->
  update_plane_issue env params_json srv log
  = (Ok "Error: No update parameters provided", log).
Proof.
  intros Hp Hpid Hgiven Hiid Hu Hkeys.
  rewrite (update_direct env params_json d pid u Hp Hpid Hgiven Hiid)
    by now apply match_uuid_well_formed.
  unfold try_except.
  rewrite (send_nothing env d pid (JString u) Hpid Hiid); [reflexivity |].
  unfold update_body. now rewrite (remove_all d _ _ Hkeys).
Qed.

Lemma update_without_fields_witness :
  update_plane_issue Sample.env
    (q "{'issue_id': '550e8400-e29b-41d4-a716-446655440000', 'project_id': 'p-1'}")
    Sample.paged_server []
  = (Ok "Error: No update parameters provided", []).
Proof.
  apply (update_without_fields Sample.env _
           [("issue_id", JString Sample.uuid); ("project_id", JString "p-1")]
           (JString "p-1") Sample.uuid);
    try reflexivity.
  - exact sample_uuid_well_formed.
  - intros k. unfold Dict.mem. cbn.
    destruct (String.eqb_spec k "issue_id"); [now right |].
    destruct (String.eqb_spec k "project_id"); [now left | discriminate].
Defined.

Lemma get_plane_issue_id_gets env params_json :
  ensures is_get any_result (get_plane_issue_id env params_json).
Proof.
  unfold get_plane_issue_id, issue_lookup.
  apply ensures_try_except; [| intros; exact I ..].
  cbv zeta. unfold requests_get.
  repeat (first
    [ apply ensures_ret
    | apply ensures_lift; intros ? ?
    | apply ensures_bind_lift; intros ? ?
    | apply ensures_bind_call; [ reflexivity | intros ? ]
    | match goal with
      | |- ensures _ _ (if ?b then _ else _) => destruct b
      | |- ensures _ _ (match ?x with _ => _ end) => destruct x
      end ]; cbv zeta); exact I.
Qed.

Lemma update_body_resolved d new_project_id new_issue_id :
  update_body (Dict.set "project_id" new_project_id
                 (Dict.set "issue_id" new_issue_id d))
  = update_body d.
Proof.
  unfold update_body.
  rewrite remove_set_same, (remove_set_other d) by discriminate.
  now rewrite remove_set_same.
Qed.

(** What the two closing handlers return after a PATCH, or before any when
    there is nothing to send. *)
Lemma send_result env d pid iid srv log :
  Dict.get "project_id" d = Some pid -> Dict.get "issue_id" d = Some iid ->
  exists o,
    try_except (update_plane_issue_send env d) srv log
    = (Ok o,
       (log ++ match update_body d with
               | [] => []
               | _ :: _ => [patch_issue env pid iid (update_body d)]
               end)%list).
Proof.
  intros Hpid Hiid. destruct (update_body d) as [| kv rest] eqn:E.
  - exists "Error: No update parameters provided". unfold try_except.
    now rewrite (send_nothing env d pid iid Hpid Hiid srv log E), app_nil_r.
  - rewrite <- E. apply send_patch; [assumption .. |]. now rewrite E.
Qed.

(** ** The identifier given to update_plane_issue *)

(** C2, amended.  For parameters with a truthy "project_id" and a non-empty
    textual "issue_id":
    - a well-formed UUID is used as it is, with the project identifier
      given: the resolver is not called, and the only request, if there is
      anything to update, is the PATCH for these two identifiers;
    - an identifier that is neither a well-formed UUID nor one followed by
      a newline is handed to get_plane_issue_id.  When the resolver's answer
      is an error text, the result is the could-not-resolve error naming the
      identifier and nothing is sent beyond the resolver's GETs.  When its
      answer decodes to an object with "issue_id" and "project_id", the
      PATCH is made for these two values in place of the ones given. *)
Theorem update_issue_identifier (env : environ) (params_json : string)
        (d : list (string * json)) (pid : json) (u : string)
        (srv : server) (log : list request) :
  load_params params_json = Some (JObject d) ->
  Dict.get "project_id" d = Some pid -> truthy pid = true ->
  Dict.get "issue_id" d = Some (JString u) -> nonempty u = true ->
  (well_formed_uuid u ->
   exists o,
     update_plane_issue env params_json srv log
     = (Ok o,
        (log ++ match update_body d with
                | [] => []
                | _ :: _ => [patch_issue env pid (JString u) (update_body d)]
                end)%list))
  /\ (~ well_formed_uuid u ->
      (forall w, well_formed_uuid w -> u <> w ++ str1 newline) ->
      exists res extra,
        get_plane_issue_id env
          (json_dumps (JObject [("issue_code", JString u)])) srv log
        = (Ok res, (log ++ extra)%list)
        /\ Forall is_get extra
        /\ (is_error res ->
            update_plane_issue env params_json srv log
            = (Ok ("Error: Could not resolve issue code " ++ u
                   ++ " to a UUID.  Details: " ++ res),
               (log ++ extra)%list))
        /\ (forall o new_issue_id new_project_id,
              json_loads res = Some (JObject o) ->
              Dict.get "issue_id" o = Some new_issue_id ->
              Dict.get "project_id" o = Some new_project_id ->
              exists out,
                update_plane_issue env params_json srv log
                = (Ok out,
                   ((log ++ extra)
                    ++ match update_body d with
                       | [] => []
                       | _ :: _ =>
                           [patch_issue env new_project_id new_issue_id
                                        (update_body d)]
                       end)%list))).
Proof.
  intros Hp Hpid Hgiven Hiid Hne. split.
  - intros Hu.
    rewrite (update_direct env params_json d pid u Hp Hpid Hgiven Hiid)
      by now apply match_uuid_well_formed.
    now apply send_result.
  - intros Hnot Hnl.
    assert (Hu : match_uuid u = false).
    { destruct (match_uuid u) eqn:E; [| reflexivity].
      apply match_uuid_inv in E as [W | (w & W & ->)];
        [contradiction | now elim (Hnl w W)]. }
    set (code_json := json_dumps (JObject [("issue_code", JString u)])).
    destruct (get_plane_issue_id_gets env code_json srv log)
      as (extra & Hl & Hq & _).
    unfold get_plane_issue_id in Hl |- *.
    match type of Hl with
    | snd (try_except ?m _ _) = _ =>
        destruct (try_except_ok m srv log) as (res & Hres)
    end.
    rewrite Hres in Hl. cbn [snd] in Hl. rewrite Hl in Hres.
    exists res, extra. split; [exact Hres |]. split; [exact Hq |]. split.
    + intros Herr.
      now apply (update_unresolved env params_json d pid u Hp Hpid Hgiven
                   Hiid srv log res).
    + intros o new_issue_id new_project_id Hload Hi Hpr.
      rewrite (update_resolved env params_json d pid u srv log res
                 (log ++ extra)%list o new_issue_id new_project_id)
        by assumption.
      rewrite <- (update_body_resolved d new_project_id new_issue_id).
      apply send_result.
      * apply get_set_same.
      * rewrite get_set_other by discriminate. apply get_set_same.
Qed.

Lemma update_issue_identifier_witness :
  (exists o,
     update_plane_issue Sample.env
       (q "{'project_id': 'p-1', 'issue_id': '550e8400-e29b-41d4-a716-446655440000', 'name': 'Renamed'}")
       Sample.array_server []
     = (Ok o, [patch_issue Sample.env (JString "p-1") (JString Sample.uuid)
                           [("name", JString "Renamed")]]))
  /\ exists out,
       update_plane_issue Sample.env
         (q "{'project_id': 'unused', 'issue_id': 'CLT-37', 'name': 'Renamed'}")
         Sample.array_server []
       = (Ok out,
          [get_projects Sample.env; get_issues Sample.env (JString "p-1");
           patch_issue Sample.env (JString "p-1") (JString "i-37")
                       [("name", JString "Renamed")]]).
Proof.
  split.
  - apply (proj1 (update_issue_identifier Sample.env
                    (q "{'project_id': 'p-1', 'issue_id': '550e8400-e29b-41d4-a716-446655440000', 'name': 'Renamed'}")
                    [("project_id", JString "p-1");
                     ("issue_id", JString Sample.uuid);
                     ("name", JString "Renamed")]
                    (JString "p-1") Sample.uuid Sample.array_server []
                    eq_refl eq_refl eq_refl eq_refl eq_refl)).
    exact sample_uuid_well_formed.
  - destruct (proj2 (update_issue_identifier Sample.env
                       (q "{'project_id': 'unused', 'issue_id': 'CLT-37', 'name': 'Renamed'}")
                       [("project_id", JString "unused");
                        ("issue_id", JString "CLT-37");
                        ("name", JString "Renamed")]
                       (JString "unused") "CLT-37" Sample.array_server []
                       eq_refl eq_refl eq_refl eq_refl eq_refl))
      as (res & extra & Hres & _ & _ & Hok).
    + intros H. apply well_formed_uuid_length in H. discriminate.
    + intros w H E. apply well_formed_uuid_length in H.
      apply (f_equal String.length) in E. rewrite length_append in E.
      cbn in E. lia.
    + injection Hres as <- Hextra. cbn [app] in Hextra. subst extra.
      exact (Hok [("issue_id", JString "i-37"); ("project_id", JString "p-1");
                  ("name", JString "Bug Fix");
                  ("current_state", JString "st-1")]
                 (JString "i-37") (JString "p-1") eq_refl eq_refl eq_refl).
Defined.

(** C2 as stated fails when "project_id" is missing: the identifier is not
    a well-formed UUID, yet the resolver is not called (no request is made)
    and the answer is the missing-parameter error. *)
Lemma update_without_project_id_counterexample :
  ~ well_formed_uuid "CLT-37"
  /\ update_plane_issue Sample.env
       (q "{'issue_id': 'CLT-37', 'name': 'Renamed'}") Sample.array_server []
     = (Ok "Error: Project ID is required", []).
Proof.
  split; [| reflexivity].
  intros H. apply well_formed_uuid_length in H. discriminate.
Qed.

(** The case the theorem leaves out.  The identifier below is a UUID
    followed by a newline, so it is not a well-formed UUID; the [$] of the
    pattern accepts it all the same, the resolver is not called, and the
    only request, whatever the server, is the PATCH built from the
    identifiers as given. *)
Lemma update_accepts_trailing_newline (env : environ) (srv : server) :
  ~ well_formed_uuid (Sample.uuid ++ str1 newline)
  /\ exists o,
       update_plane_issue env
         (q "{'project_id': 'p-1', 'issue_id': '550e8400-e29b-41d4-a716-446655440000\n', 'name': 'Renamed'}")
         srv []
       = (Ok o,
          [patch_issue env (JString "p-1")
                       (JString (Sample.uuid ++ str1 newline))
                       [("name", JString "Renamed")]]).
Proof.
  split.
  - intros H. apply well_formed_uuid_length in H. discriminate.
  - set (d := [("project_id", JString "p-1");
               ("issue_id", JString (Sample.uuid ++ str1 newline));
               ("name", JString "Renamed")]).
    rewrite (update_direct env _ d (JString "p-1")
               (Sample.uuid ++ str1 newline)) by reflexivity.
    apply (send_patch env d (JString "p-1")
             (JString (Sample.uuid ++ str1 newline)));
      try reflexivity.
    discriminate.
Qed.

(** ** Multi-step operations stop at the first failing step *)

Lemma delete_preflight_failed env params_json d pid srv log :
  load_params params_json = Some (JObject d) ->
  Dict.get "project_id" d = Some pid -> truthy pid = true ->
  truthy (get_or d "confirm" JNull) = true ->
  (forall r, srv log (get_project env pid) = Replied r ->
             status_code r <> 200) ->
  exists s,
    delete_plane_project env params_json srv log
    = (Ok s, (log ++ [get_project env pid])%list)
    /\ is_error s.
Proof.
  intros Hp Hpid Hgiven Hc Hsrv.
  unfold delete_plane_project, try_except. rewrite Hp.
  cbn [as_dict]. rewrite bind_lift_ok.
  rewrite (get_or_get _ _ _ _ Hpid), Hgiven, Hc. cbn [negb]. cbv zeta.
  unfold dict_getitem. rewrite Hpid, bind_lift_ok.
  unfold requests_get. fold (get_project env pid).
  destruct (srv log (get_project env pid)) as [err | r] eqn:E.
  - rewrite (bind_unreachable _ _ _ _ _ E). cbn.
    eexists; split; reflexivity.
  - rewrite (bind_replied _ _ _ _ _ E).
    specialize (Hsrv r eq_refl). apply Z.eqb_neq in Hsrv. rewrite Hsrv.
    cbn. eexists; split; reflexivity.
Qed.

(** C9.  delete_plane_project: when the pre-flight GET of the project is
    not answered with status 200 (another status, or no answer at all), the
    result is an error text and the GET is the only request: no DELETE.
    update_plane_issue: when the identifier has to be resolved and the
    resolver answers with an error text, the result is the could-not-resolve
    error and the only requests are the resolver's GETs: no PATCH. *)
Theorem multi_step_operations_abort (env : environ) (srv : server)
        (log : list request) :
  (forall params_json d pid,
     load_params params_json = Some (JObject d) ->
     Dict.get "project_id" d = Some pid -> truthy pid = true ->
     truthy (get_or d "confirm" JNull) = true ->
     (forall r, srv log (get_project env pid) = Replied r ->
                status_code r <> 200) ->
     exists s,
       delete_plane_project env params_json srv log
       = (Ok s, (log ++ [get_project env pid])%list)
       /\ is_error s)
  /\ (forall params_json d pid u res log1,
        load_params params_json = Some (JObject d) ->
        Dict.get "project_id" d = Some pid -> truthy pid = true ->
        Dict.get "issue_id" d = Some (JString u) ->
        nonempty u = true -> match_uuid u = false ->
        get_plane_issue_id env
          (json_dumps (JObject [("issue_code", JString u)])) srv log
        = (Ok res, log1) ->
        is_error res ->
        update_plane_issue env params_json srv log
        = (Ok ("Error: Could not resolve issue code " ++ u
               ++ " to a UUID.  Details: " ++ res), log1)
        /\ exists extra, log1 = (log ++ extra)%list /\ Forall is_get extra).
Proof.
  split.
  - intros. eapply delete_preflight_failed; eauto.
  - intros params_json d pid u res log1 Hp Hpid Hgiven Hiid Hne Hu Hres Herr.
    split.
    + eapply update_unresolved; eauto.
    + destruct (get_plane_issue_id_gets env
                  (json_dumps (JObject [("issue_code", JString u)])) srv log)
        as (extra & Hl & Hq & _).
      rewrite Hres in Hl. cbn in Hl. eauto.
Qed.

Lemma multi_step_operations_abort_witness :
  (exists s,
     delete_plane_project Sample.env
       (q "{'project_id': 'p-1', 'confirm': true}") Sample.forbidden []
     = (Ok s, [get_project Sample.env (JString "p-1")]) /\ is_error s)
  /\ update_plane_issue Sample.env
       (q "{'project_id': 'p-1', 'issue_id': 'CLT-99', 'name': 'Renamed'}")
       Sample.array_server []
     = (Ok ("Error: Could not resolve issue code CLT-99 to a UUID.  Details: "
            ++ "Error: No issue found with sequence ID 99 in project CLT"),
        [get_projects Sample.env;
         get_issues Sample.env (JString "p-1")]).
Proof.
  split.
  - apply (proj1 (multi_step_operations_abort Sample.env Sample.forbidden [])
             (q "{'project_id': 'p-1', 'confirm': true}")
             [("project_id", JString "p-1"); ("confirm", JBool true)]
             (JString "p-1")); try reflexivity.
    intros r [= <-]. discriminate.
  - apply (proj2 (multi_step_operations_abort Sample.env Sample.array_server
                    [])
             (q "{'project_id': 'p-1', 'issue_id': 'CLT-99', 'name': 'Renamed'}")
             [("project_id", JString "p-1"); ("issue_id", JString "CLT-99");
              ("name", JString "Renamed")]
             (JString "p-1") "CLT-99"
             "Error: No issue found with sequence ID 99 in project CLT");
      reflexivity.
Defined.

(** ** Optional keys of the request bodies *)

Lemma truthy_get_or d key :
  truthy (get_or d key JNull) = true ->
  Dict.get key d = Some (get_or d key JNull).
Proof.
  unfold get_or. destruct (Dict.get key d); [reflexivity | discriminate].
Qed.

Lemma get_add_fields (params : list (string * json)) k fields data :
  Dict.get k
    (fold_left
       (fun data field =>
          if truthy (get_or params field JNull)
          then Dict.set field (get_or params field JNull) data
          else data) fields data)
  = if existsb (String.eqb k) fields && truthy (get_or params k JNull)
    then Some (get_or params k JNull)
    else Dict.get k data.
Proof.
  revert data. induction fields as [| f fields IH]; intros data; cbn;
    [reflexivity |].
  rewrite IH. destruct (String.eqb_spec k f) as [-> | Hk]; cbn.
  - destruct (truthy (get_or params f JNull)) eqn:T.
    + now rewrite andb_true_r, get_set_same, Tauto.if_same.
    + now rewrite andb_false_r.
  - destruct (truthy (get_or params f JNull));
      [now rewrite get_set_other |]; reflexivity.
Qed.

Lemma create_plane_issue_posts env params_json d srv log :
  load_params params_json = Some (JObject d) ->
  truthy (get_or d "project_id" JNull) = true ->
  truthy (get_or d "name" JNull) = true ->
  exists o,
    create_plane_issue env params_json srv log
    = (Ok o, (log ++ [post_issue env (get_or d "project_id" JNull)
                        (add_optional_fields d (issue_base d))])%list).
Proof.
  intros Hp Hpid Hname. unfold create_plane_issue.
  match goal with
  | |- exists _, try_except ?m _ _ = _ =>
      destruct (try_except_ok m srv log) as (o & ->); exists o; f_equal
  end.
  rewrite Hp. cbn [as_dict]. rewrite bind_lift_ok, Hpid, Hname.
  cbn [negb]. cbv zeta. unfold dict_getitem.
  rewrite (truthy_get_or _ _ Hname), (truthy_get_or _ _ Hpid), !bind_lift_ok.
  unfold requests_post. fold (issue_base d).
  fold (post_issue env (get_or d "project_id" JNull)
                   (add_optional_fields d (issue_base d))).
  unfold bind, requests_call.
  destruct (srv log _) as [err | r]; [reflexivity |].
  destruct (status_code r =? 201); [| reflexivity].
  unfold lift. destruct (response_json r) as [result |]; [| reflexivity].
  destruct (py_getitem result "name"); [| reflexivity].
  destruct (py_getitem result "sequence_id"); reflexivity.
Qed.

Lemma create_plane_project_posts env params_json d srv log :
  load_params params_json = Some (JObject d) ->
  truthy (get_or d "name" JNull) = true ->
  truthy (get_or d "identifier" JNull) = true ->
  exists o,
    create_plane_project env params_json srv log
    = (Ok o, (log ++ [post_project env (project_base d)])%list).
Proof.
  intros Hp Hname Hident. unfold create_plane_project.
  match goal with
  | |- exists _, try_except_exception ?m _ _ = _ =>
      destruct (try_except_exception_ok m srv log) as (o & ->);
      exists o; f_equal
  end.
  rewrite Hp. cbn [as_dict]. rewrite bind_lift_ok. cbv zeta.
  rewrite Hname, Hident. cbn [negb].
  unfold requests_post. fold (project_base d).
  fold (post_project env (project_base d)).
  unfold bind, try_request, requests_call.
  destruct (srv log _) as [err | r]; [reflexivity |].
  unfold lift. destruct (raise_for_status _ r) as [[] | [c msg]].
  - cbn. destruct (status_code r =? 201); [| reflexivity].
    destruct (response_json r) as [result |]; [| reflexivity].
    destruct (py_getitem result "name"); [| reflexivity].
    destruct (py_getitem result "identifier"); reflexivity.
  - cbn. destruct (is_request_exception c); reflexivity.
Qed.

Lemma update_body_get d k :
  k <> "project_id" -> k <> "issue_id" -> k <> "description_html" ->
  Dict.get k (update_body d) = Dict.get k d.
Proof.
  intros H1 H2 H3. unfold update_body.
  destruct (Dict.get "description" _);
    rewrite ?get_set_other by assumption;
    now rewrite !get_remove_other by assumption.
Qed.

(** C6, amended.  create_plane_issue: each of state_id, assignee_ids,
    label_ids, start_date and target_date is in the POST body, with its
    value, exactly when the parameters give it a truthy value; the other
    keys of the body are the four fixed ones.  update_plane_issue sends
    every parameter other than project_id and issue_id as it is, empty or
    false values included (and description_html, derived from description
    when that is present).  create_plane_project always sends name,
    identifier, description and network, the last two with a default when
    the parameters do not give them. *)
Theorem optional_keys_in_bodies (env : environ) (srv : server)
        (log : list request) :
  (forall params_json d,
     load_params params_json = Some (JObject d) ->
     truthy (get_or d "project_id" JNull) = true ->
     truthy (get_or d "name" JNull) = true ->
     exists o body,
       create_plane_issue env params_json srv log
       = (Ok o, (log ++ [post_issue env (get_or d "project_id" JNull)
                           body])%list)
       /\ (forall k, In k optional_fields ->
             Dict.get k body
             = if truthy (get_or d k JNull)
               then Some (get_or d k JNull) else None)
       /\ (forall k, ~ In k optional_fields ->
             Dict.get k body = Dict.get k (issue_base d)))
  /\ (forall params_json d pid u,
        load_params params_json = Some (JObject d) ->
        Dict.get "project_id" d = Some pid -> truthy pid = true ->
        Dict.get "issue_id" d = Some (JString u) -> match_uuid u = true ->
        update_body d <> [] ->
        exists o,
          update_plane_issue env params_json srv log
          = (Ok o, (log ++ [patch_issue env pid (JString u)
                              (update_body d)])%list)
          /\ (forall k, k <> "project_id" -> k <> "issue_id" ->
                k <> "description_html" ->
                Dict.get k (update_body d) = Dict.get k d)
          /\ Dict.get "project_id" (update_body d) = None
          /\ Dict.get "issue_id" (update_body d) = None)
  /\ (forall params_json d,
        load_params params_json = Some (JObject d) ->
        truthy (get_or d "name" JNull) = true ->
        truthy (get_or d "identifier" JNull) = true ->
        exists o,
          create_plane_project env params_json srv log
          = (Ok o, (log ++ [post_project env (project_base d)])%list)).
Proof.
  split; [| split; [| intros; now apply create_plane_project_posts]].
  - intros params_json d Hp Hpid Hname.
    destruct (create_plane_issue_posts env params_json d srv log Hp Hpid Hname)
      as (o & E).
    exists o, (add_optional_fields d (issue_base d)). split; [exact E |].
    unfold add_optional_fields. split; intros k Hk; rewrite get_add_fields.
    + assert (Hin : existsb (String.eqb k) optional_fields = true).
      { apply existsb_exists. exists k. split; [exact Hk |].
        apply String.eqb_refl. }
      rewrite Hin. cbn [andb].
      destruct (truthy (get_or d k JNull)); [reflexivity |].
      cbn in Hk. decompose [or] Hk; subst; try reflexivity; contradiction.
    + assert (Hin : existsb (String.eqb k) optional_fields = false).
      { apply not_true_is_false. intros H. apply existsb_exists in H.
        destruct H as (f & Hf & Heq). apply String.eqb_eq in Heq. now subst. }
      now rewrite Hin.
  - intros params_json d pid u Hp Hpid Hgiven Hiid Hu Hbody.
    rewrite (update_direct env params_json d pid u Hp Hpid Hgiven Hiid)
      by assumption.
    destruct (send_patch env d pid (JString u) Hpid Hiid srv log Hbody)
      as (o & E).
    exists o. split; [exact E |]. split; [apply update_body_get |].
    unfold update_body.
    destruct (Dict.get "description" _);
      rewrite ?get_set_other by discriminate;
      rewrite ?get_remove_same;
      rewrite ?get_remove_other by discriminate;
      rewrite ?get_remove_same; auto.
Qed.

Lemma optional_keys_in_bodies_witness :
  (exists o body,
     create_plane_issue Sample.env
       (q "{'project_id': 'p-1', 'name': 'Bug Fix', 'state_id': '', 'label_ids': ['l-1']}")
       Sample.paged_server []
     = (Ok o, [post_issue Sample.env (JString "p-1") body])
     /\ Dict.get "state_id" body = None
     /\ Dict.get "label_ids" body = Some (JArray [JString "l-1"]))
  /\ exists o,
       update_plane_issue Sample.env
         (q "{'project_id': 'p-1', 'issue_id': '550e8400-e29b-41d4-a716-446655440000', 'name': 'Renamed', 'state_id': null}")
         Sample.paged_server []
       = (Ok o, [patch_issue Sample.env (JString "p-1")
                   (JString Sample.uuid)
                   [("name", JString "Renamed"); ("state_id", JNull)]]).
Proof.
  split.
  - destruct (proj1 (optional_keys_in_bodies Sample.env Sample.paged_server [])
                (q "{'project_id': 'p-1', 'name': 'Bug Fix', 'state_id': '', 'label_ids': ['l-1']}")
                [("project_id", JString "p-1"); ("name", JString "Bug Fix");
                 ("state_id", JString ""); ("label_ids", JArray [JString "l-1"])]
                eq_refl eq_refl eq_refl) as (o & body & E & Hopt & _).
    exists o, body. split; [exact E |]. split.
    + apply (Hopt "state_id"). cbn. auto.
    + apply (Hopt "label_ids"). cbn. auto.
  - destruct (proj1 (proj2 (optional_keys_in_bodies Sample.env
                              Sample.paged_server []))
                (q "{'project_id': 'p-1', 'issue_id': '550e8400-e29b-41d4-a716-446655440000', 'name': 'Renamed', 'state_id': null}")
                [("project_id", JString "p-1");
                 ("issue_id", JString Sample.uuid);
                 ("name", JString "Renamed"); ("state_id", JNull)]
                (JString "p-1") Sample.uuid eq_refl eq_refl eq_refl eq_refl
                eq_refl) as (o & E & _).
    + discriminate.
    + exists o. exact E.
Defined.

(** C6 as stated fails for update_plane_issue: the empty name is not
    truthy, and it is in the body of the PATCH. *)
Lemma update_sends_empty_value_counterexample :
  truthy (JString "") = false
  /\ update_plane_issue Sample.env
       (q "{'project_id': 'p-1', 'issue_id': '550e8400-e29b-41d4-a716-446655440000', 'name': ''}")
       Sample.paged_server []
     = (Ok "Error: API request failed with status code 404",
        [patch_issue Sample.env (JString "p-1") (JString Sample.uuid)
                     [("name", JString "")]]).
Proof. split; reflexivity. Qed.

(** ** The issue-code pattern *)



(** ** get_plane_issue_id: from the code to the lookups *)







(** ** The two scans of the resolver *)








(** ** The filters of list_plane_issues *)










Lemma map_raising_pure {B} (f : json -> outcome B) (g : json -> B)
      (l : list json) :
  (forall i, In i l -> f i = Ok (g i)) -> map_raising f l = Ok (map g l).
Proof.
  induction l as [| i l IH]; intros H; cbn; [reflexivity |].
  rewrite (H i (or_introl eq_refl)). cbn.
  rewrite IH by (intros; apply H; now right). reflexivity.
Qed.



(** ** Worked examples *)

(** An update addressed by issue code: two lookups, then the PATCH with the
    identifiers found. *)
Example update_by_issue_code :
  snd (update_plane_issue Sample.env
         (q "{'project_id': 'unused', 'issue_id': 'CLT-37', 'priority': 'low'}")
         Sample.array_server [])
  = [get_projects Sample.env;
     get_issues Sample.env (JString "p-1");
     patch_issue Sample.env (JString "p-1") (JString "i-37")
                 [("priority", JString "low")]].
Proof. reflexivity. Qed.

(** The end-to-end example of the specification. *)
Example create_issue_end_to_end :
  fst (create_plane_issue Sample.env
         (q "{'project_id':'P1','name':'Bug Fix','priority':'high'}")
         (fun _ _ =>
            Replied (Response 201 "Created"
                       (Json (JObject [("name", JString "Bug Fix");
                                       ("sequence_id", JInt 123)]))))
         [])
  = Ok "Issue created: Bug Fix (#123)".
Proof. reflexivity. Qed.

(** ** Validation of the parameters *)

(** X1.  Parameters that decode to an object: when a required parameter of
    the operation is missing or falsy, the result is the error of the first
    such parameter in the order the operation checks them, and no request is
    made. *)
Theorem missing_required_parameter (op : operation) (env : environ)
        (params_json : string) (d : list (string * json)) (error : string)
        (srv : server) (log : list request) :
  load_params params_json = Some (JObject d) ->
  first_missing d (required_parameters op) = Some error ->
  run_operation op env params_json srv log = (Ok error, log).
Proof.
  intros Hp Hm.
  destruct op; cbn [required_parameters first_missing] in Hm;
    unfold supplied in Hm; try discriminate;
    cbn [run_operation];
    unfold create_plane_project, delete_plane_project, create_plane_issue,
      list_plane_issues, update_plane_issue, get_plane_issue_id,
      try_except, try_except_exception;
    rewrite Hp; cbn [as_dict]; rewrite bind_lift_ok; cbv zeta;
    repeat match type of Hm with
           | (if truthy ?v then _ else _) = _ =>
               destruct (truthy v); cbn [negb]
           end;
    try discriminate; injection Hm as <-; reflexivity.
Qed.

Lemma missing_required_parameter_witness :
  create_plane_project Sample.env (q "{'name': 'Test Project'}")
                       Sample.paged_server []
  = (Ok "Error: Project identifier is required", []).
Proof.
  apply (missing_required_parameter CreateProject Sample.env
           (q "{'name': 'Test Project'}")
           [("name", JString "Test Project")]); reflexivity.
Defined.

(** X2.  Parameters that are valid JSON but not an object (an array, a
    number, a text, true, false, null): every operation that reads its
    parameters fails on its first [params.get], reports the attribute error
    as an unexpected error, and makes no request. *)
Theorem parameters_not_an_object (op : operation) (env : environ)
        (params_json : string) (v : json)
        (srv : server) (log : list request) :
  op <> ListProjects ->
  load_params params_json = Some v -> is_object v = false ->
  run_operation op env params_json srv log = (Ok (no_get_attribute v), log).
Proof.
  intros Hop Hp Hv.
  destruct op; try congruence; cbn [run_operation];
    unfold create_plane_project, delete_plane_project, create_plane_issue,
      list_plane_issues, update_plane_issue, get_plane_issue_id,
      try_except, try_except_exception;
    rewrite Hp; destruct v; try discriminate; reflexivity.
Qed.

Lemma parameters_not_an_object_witness :
  update_plane_issue Sample.env "null" Sample.paged_server []
  = (Ok "Error: Unexpected error - 'NoneType' object has no attribute 'get'",
     [])
  /\ create_plane_issue Sample.env "[1, 2]" Sample.paged_server []
     = (Ok "Error: Unexpected error - 'list' object has no attribute 'get'",
        []).
Proof.
  split.
  - apply (parameters_not_an_object UpdateIssue Sample.env "null" JNull);
      [discriminate | reflexivity | reflexivity].
  - apply (parameters_not_an_object CreateIssue Sample.env "[1, 2]"
             (JArray [JInt 1; JInt 2]));
      [discriminate | reflexivity | reflexivity].
Defined.

(** ** The requests of an operation *)

Section Performs.
Context {A B : Type}.

Lemma performs_ret (R : list method -> outcome A -> Prop) (a : A) :
  R [] (Ok a) -> performs R (ret a).
Proof. intros H srv log. exists []. cbn. now rewrite app_nil_r. Qed.

Lemma performs_lift (R : list method -> outcome A -> Prop) (o : outcome A) :
  R [] o -> performs R (lift o).
Proof. intros H srv log. exists []. cbn. now rewrite app_nil_r. Qed.

Lemma performs_bind_lift (R : list method -> outcome B -> Prop)
      (o : outcome A) (k : A -> io B) :
  (forall e, o = Raise e -> R [] (Raise e)) ->
  (forall a, o = Ok a -> performs R (k a)) ->
  performs R (bind (lift o) k).
Proof.
  intros He Hk srv log. destruct o as [a | e].
  - rewrite bind_lift_ok. now apply Hk.
  - exists []. cbn. rewrite app_nil_r. split; [reflexivity | now apply He].
Qed.

Lemma performs_bind (R1 : list method -> outcome A -> Prop)
      (R2 : A -> list method -> outcome B -> Prop)
      (R : list method -> outcome B -> Prop) (m : io A) (k : A -> io B) :
  performs R1 m -> (forall a, performs (R2 a) (k a)) ->
  (forall vs e, R1 vs (Raise e) -> R vs (Raise e)) ->
  (forall a v1 v2 o, R1 v1 (Ok a) -> R2 a v2 o -> R (v1 ++ v2)%list o) ->
  performs R (bind m k).
Proof.
  intros Hm Hk Hr Hok srv log.
  destruct (Hm srv log) as (e1 & L1 & R1m). unfold bind.
  destruct (m srv log) as [[a | e] log1]; cbn in L1, R1m; subst log1.
  - destruct (Hk a srv (log ++ e1)%list) as (e2 & L2 & R2k).
    exists (e1 ++ e2)%list. rewrite L2, app_assoc, map_app.
    split; [reflexivity | eapply Hok; eassumption].
  - exists e1. cbn. split; [reflexivity | now apply Hr].
Qed.

Lemma performs_weaken (R R' : list method -> outcome A -> Prop) (m : io A) :
  performs R m -> (forall vs o, R vs o -> R' vs o) -> performs R' m.
Proof.
  intros Hm Hw srv log. destruct (Hm srv log) as (e & L & H).
  exists e. split; [exact L | now apply Hw].
Qed.
End Performs.

Lemma performs_bind_call {B} (R : list method -> outcome B -> Prop)
      (req : request) (k : response -> io B) :
  (forall err, R [verb req] (Raise (Exn TransportError err))) ->
  (forall r, performs (fun vs o => R (verb req :: vs) o) (k r)) ->
  performs R (bind (requests_call req) k).
Proof.
  intros He Hk srv log. unfold bind, requests_call.
  destruct (srv log req) as [err | r].
  - exists [req]. cbn. split; [reflexivity | apply He].
  - destruct (Hk r srv (log ++ [req])%list) as (e & L & H).
    exists (req :: e). rewrite L, <- app_assoc. cbn. now split.
Qed.

Lemma performs_try_except (R : list method -> outcome string -> Prop)
      (m : io string) :
  performs (fun vs o => forall s, handled o s -> R vs (Ok s)) m ->
  performs R (try_except m).
Proof.
  intros Hm srv log. destruct (Hm srv log) as (e & L & H).
  exists e. unfold try_except.
  destruct (m srv log) as [[s | [c msg]] log1]; cbn in *.
  - split; [exact L | now apply H].
  - split; [exact L |].
    destruct (is_request_exception c); apply H; [now left | now right].
Qed.

Lemma performs_try_except_exception
      (R : list method -> outcome string -> Prop) (m : io string) :
  performs (fun vs o => forall s, handled o s -> R vs (Ok s)) m ->
  performs R (try_except_exception m).
Proof.
  intros Hm srv log. destruct (Hm srv log) as (e & L & H).
  exists e. unfold try_except_exception.
  destruct (m srv log) as [[s | [c msg]] log1]; cbn in *.
  - split; [exact L | now apply H].
  - split; [exact L |]. apply H. now right.
Qed.

Lemma performs_try_request {A} (R : list method -> outcome (string + A) -> Prop)
      (m : io A) :
  performs (fun vs _ => forall o, R vs o) m -> performs R (try_request m).
Proof.
  intros Hm srv log. destruct (Hm srv log) as (e & L & H).
  exists e. unfold try_request.
  destruct (m srv log) as [[a | [c msg]] log1]; cbn in *.
  - split; [exact L | apply H].
  - destruct (is_request_exception c); cbn; (split; [exact L | apply H]).
Qed.

(** The leaves: the pattern reached belongs to the list, and the result is an
    error text wherever the relation asks for one. *)
Ltac performs_tidy :=
  intros;
  repeat match goal with
         | H : handled _ _ |- _ => cbn [handled] in H
         | H : _ \/ _ |- _ => destruct H
         | H : Ok _ = Ok _ |- _ => injection H as H
         | H : Raise _ = Ok _ |- _ => discriminate H
         | e : exn |- _ => destruct e
         end;
  subst.

Ltac performs_leaf :=
  cbn beta; performs_tidy; repeat split; performs_tidy;
  cbn [In request_patterns];
  try solve [left; reflexivity]; auto 10.

Ltac performs_step :=
  lazymatch goal with
  | |- performs _ (try_except _) => apply performs_try_except
  | |- performs _ (try_except_exception _) =>
      apply performs_try_except_exception
  | |- performs _ (try_request _) => apply performs_try_request
  | |- performs _ (ret _) => apply performs_ret; performs_leaf
  | |- performs _ (lift ?o) => apply performs_lift; destruct o; performs_leaf
  | |- performs _ (bind (lift _) _) =>
      apply performs_bind_lift; [performs_leaf | intros ? ?]
  | |- performs _ (bind (requests_call _) _) =>
      apply performs_bind_call; [performs_leaf | intros ?]
  | |- performs _ (if ?b then _ else _) => destruct b eqn:?
  | |- performs _ (match ?x with _ => _ end) => destruct x eqn:?
  end.

Ltac performs_steps :=
  cbv zeta;
  unfold requests_get, requests_post, requests_patch, requests_delete;
  repeat (performs_step; cbv zeta; cbn [verb]).

Lemma create_plane_project_pattern env params_json :
  performs (fun vs _ => In vs (request_patterns CreateProject))
           (create_plane_project env params_json).
Proof.
  unfold create_plane_project. performs_steps.
  apply (performs_bind (fun vs _ => vs = [POST]) (fun _ vs _ => vs = []));
    [performs_steps | intros ?; performs_steps | performs_leaf ..].
Qed.

Lemma create_plane_issue_pattern env params_json :
  performs (fun vs _ => In vs (request_patterns CreateIssue))
           (create_plane_issue env params_json).
Proof. unfold create_plane_issue. performs_steps. Qed.

Lemma delete_plane_project_pattern env params_json :
  performs (fun vs _ => In vs (request_patterns DeleteProject))
           (delete_plane_project env params_json).
Proof. unfold delete_plane_project. performs_steps. Qed.

Lemma list_plane_projects_pattern env params_json :
  performs (fun vs _ => In vs (request_patterns ListProjects))
           (list_plane_projects env params_json).
Proof. unfold list_plane_projects. performs_steps. Qed.

Lemma list_plane_issues_pattern env params_json :
  performs (fun vs _ => In vs (request_patterns ListIssues))
           (list_plane_issues env params_json).
Proof. unfold list_plane_issues. performs_steps. Qed.

(** The resolver returns a text that is not an error only after its two
    GETs. *)
Lemma get_plane_issue_id_pattern env params_json :
  performs (fun vs o =>
              In vs (request_patterns ResolveIssueCode)
              /\ forall s, o = Ok s -> is_error s \/ vs = [GET; GET])
           (get_plane_issue_id env params_json).
Proof.
  unfold get_plane_issue_id, issue_lookup. performs_steps.
Qed.

Lemma update_plane_issue_send_pattern env params :
  performs (fun vs _ => In vs [[]; [PATCH]])
           (update_plane_issue_send env params).
Proof. unfold update_plane_issue_send. performs_steps. Qed.

Lemma is_error_dec s : {is_error s} + {~ is_error s}.
Proof.
  unfold is_error. destruct (starts_with "Error: " s);
    [now left | right; discriminate].
Qed.

Lemma update_plane_issue_pattern env params_json :
  performs (fun vs _ => In vs (request_patterns UpdateIssue))
           (update_plane_issue env params_json).
Proof.
  unfold update_plane_issue. performs_steps.
  - apply (performs_bind
             (fun vs o =>
                In vs (request_patterns ResolveIssueCode)
                /\ forall s, o = Ok s -> is_error s \/ vs = [GET; GET])
             (fun res vs _ => In vs [[]; [PATCH]] /\ (is_error res -> vs = [])));
      [apply get_plane_issue_id_pattern | | |].
    + intros res. destruct (is_error_dec res) as [E | E].
      * rewrite (json_loads_error res E). performs_steps.
      * destruct (json_loads res); performs_steps;
          try (eapply performs_weaken;
               [apply update_plane_issue_send_pattern |]);
          performs_leaf; contradiction.
    + performs_leaf; cbn [In request_patterns] in *; intuition auto 10.
    + intros res v1 v2 o [Ha Hb] [Hc Hd] s _.
      destruct (Hb res eq_refl) as [E | ->].
      * rewrite (Hd E), app_nil_r.
        cbn [In request_patterns] in *. intuition auto 10.
      * cbn [In request_patterns] in *.
        destruct Hc as [<- | [<- | []]]; cbn; auto 10.
  - eapply performs_weaken; [apply update_plane_issue_send_pattern |].
    intros vs o Hvs s _. cbn [In request_patterns] in *. intuition auto 10.
Qed.

(** X3.  Whatever the parameters and the server, one call of an operation
    appends to the log one of these sequences of requests and nothing else:
    create_plane_project and create_plane_issue at most one POST;
    list_plane_projects exactly one GET; delete_plane_project nothing, a GET,
    or a GET followed by a DELETE; list_plane_issues and get_plane_issue_id at
    most two GETs; update_plane_issue nothing, one PATCH, one or two GETs, or
    two GETs followed by a PATCH.  So no operation repeats a request, the
    reading operations never write, a DELETE is always preceded by its GET,
    and a PATCH follows either no GET or both. *)
Theorem requests_of_an_operation (op : operation) (env : environ)
        (params_json : string) (srv : server) (log : list request) :
  exists extra,
    snd (run_operation op env params_json srv log) = (log ++ extra)%list
    /\ In (map verb extra) (request_patterns op).
Proof.
  destruct op; cbn [run_operation].
  - apply (create_plane_project_pattern env params_json srv log).
  - apply (delete_plane_project_pattern env params_json srv log).
  - apply (list_plane_projects_pattern env params_json srv log).
  - apply (create_plane_issue_pattern env params_json srv log).
  - apply (list_plane_issues_pattern env params_json srv log).
  - apply (update_plane_issue_pattern env params_json srv log).
  - destruct (get_plane_issue_id_pattern env params_json srv log)
      as (extra & L & H & _).
    now exists extra.
Qed.

(** ** A server that cannot be reached *)

Section WhenDown.
Context (err : string) {A B : Type}.

Lemma when_down_ret (P : outcome A -> Prop) (a : A) :
  P (Ok a) -> when_down err P (ret a).
Proof. intros H log. left. now split. Qed.

Lemma when_down_lift (P : outcome A -> Prop) (o : outcome A) :
  P o -> when_down err P (lift o).
Proof. intros H log. left. now split. Qed.

Lemma when_down_bind_lift (P : outcome B -> Prop) (o : outcome A)
      (k : A -> io B) :
  (forall e, o = Raise e -> P (Raise e)) ->
  (forall a, o = Ok a -> when_down err P (k a)) ->
  when_down err P (bind (lift o) k).
Proof.
  intros He Hk log. destruct o as [a | e].
  - rewrite bind_lift_ok. now apply Hk.
  - left. split; [reflexivity | now apply He].
Qed.

Lemma when_down_bind_call (P : outcome B -> Prop) (req : request)
      (k : response -> io B) :
  when_down err P (bind (requests_call req) k).
Proof. intros log. right. now exists req. Qed.
End WhenDown.

Lemma when_down_try_except err (m : io string) log :
  when_down err (fun o => forall s, handled o s -> is_error s) m ->
  exists s extra,
    try_except m (unreachable err) log = (Ok s, (log ++ extra)%list)
    /\ is_error s
    /\ (extra = []
        \/ (exists req, extra = [req])
           /\ s = "Error: Network error - " ++ err).
Proof.
  intros Hm. unfold try_except. destruct (Hm log) as [[L H] | [req E]].
  - destruct (m (unreachable err) log) as [[s | [c msg]] log1]; cbn in L, H;
      subst log1.
    + exists s, []. rewrite app_nil_r. repeat split; auto.
    + eexists; exists []. rewrite app_nil_r.
      split; [reflexivity |]. split; [| now left].
      destruct (is_request_exception c); apply H; [now left | now right].
  - rewrite E. cbn. eexists; exists [req]. split; [reflexivity |].
    split; [reflexivity |]. right. split; [now exists req | reflexivity].
Qed.

Ltac when_down_leaf :=
  cbn beta; performs_tidy; try reflexivity.

Ltac when_down_step :=
  lazymatch goal with
  | |- when_down _ _ (ret _) => apply when_down_ret; when_down_leaf
  | |- when_down _ _ (lift ?o) =>
      apply when_down_lift; destruct o; when_down_leaf
  | |- when_down _ _ (bind (lift _) _) =>
      apply when_down_bind_lift; [when_down_leaf | intros ? ?]
  | |- when_down _ _ (bind (requests_call _) _) => apply when_down_bind_call
  | |- when_down _ _ (if ?b then _ else _) => destruct b eqn:?
  | |- when_down _ _ (match ?x with _ => _ end) => destruct x eqn:?
  end.

Ltac when_down_steps :=
  cbv zeta;
  unfold requests_get, requests_post, requests_patch, requests_delete;
  repeat (when_down_step; cbv zeta).

Ltac no_request_error :=
  eexists; exists []; rewrite app_nil_r;
  split; [reflexivity | split; [reflexivity | now left]].

Ltac when_down_operation :=
  apply when_down_try_except; when_down_steps.

Lemma get_plane_issue_id_unreachable env params_json err log :
  exists s extra,
    get_plane_issue_id env params_json (unreachable err) log
    = (Ok s, (log ++ extra)%list)
    /\ is_error s
    /\ (extra = []
        \/ (exists req, extra = [req])
           /\ s = "Error: Network error - " ++ err).
Proof. unfold get_plane_issue_id, issue_lookup. when_down_operation. Qed.

Lemma update_plane_issue_send_down env params err :
  when_down err (fun o => forall s, handled o s -> is_error s)
            (update_plane_issue_send env params).
Proof. unfold update_plane_issue_send. when_down_steps. Qed.

(** X4.  Against a server that cannot be reached, every operation returns
    an error text after at most one request, never a second one.  When it
    did make a request, the text carries what the call raised: as a network
    error for six operations (for update_plane_issue possibly inside the
    could-not-resolve error, when the call was the resolver's), and as a
    failed API request for create_plane_project. *)
Theorem unreachable_server (op : operation) (env : environ)
        (params_json : string) (err : string) (log : list request) :
  exists s extra,
    run_operation op env params_json (unreachable err) log
    = (Ok s, (log ++ extra)%list)
    /\ is_error s
    /\ (extra = []
        \/ (exists req, extra = [req]) /\ reports_unreachable op err s).
Proof.
  destruct op; cbn [run_operation reports_unreachable].
  - (* create_plane_project *)
    unfold create_plane_project, try_except_exception.
    destruct (load_params params_json) as [v |]; [| no_request_error].
    destruct v as [| | | | | | d]; try no_request_error.
    cbn [as_dict]. rewrite bind_lift_ok. cbv zeta.
    destruct (truthy (get_or d "name" JNull)); [| no_request_error].
    destruct (truthy (get_or d "identifier" JNull)); [| no_request_error].
    eexists; eexists [_]. split; [reflexivity |].
    split; [reflexivity |]. right. split; [eauto | reflexivity].
  - unfold delete_plane_project. when_down_operation.
  - unfold list_plane_projects. when_down_operation.
  - unfold create_plane_issue. when_down_operation.
  - unfold list_plane_issues. when_down_operation.
  - (* update_plane_issue *)
    destruct (load_params params_json) as [v |] eqn:E;
      [| unfold update_plane_issue; rewrite E; no_request_error].
    destruct v as [| | | | | | d];
      try (unfold update_plane_issue; rewrite E; no_request_error).
    destruct (truthy (get_or d "project_id" JNull)) eqn:T1;
      [| unfold update_plane_issue, try_except; rewrite E; cbn [as_dict];
         rewrite bind_lift_ok, T1; no_request_error].
    destruct (truthy (get_or d "issue_id" JNull)) eqn:T2;
      [| unfold update_plane_issue, try_except; rewrite E; cbn [as_dict];
         rewrite bind_lift_ok, T1, T2; no_request_error].
    pose proof (truthy_get_or _ _ T1) as Hpid.
    pose proof (truthy_get_or _ _ T2) as Hiid.
    destruct (get_or d "issue_id" JNull) as [| | | | u | |] eqn:G;
      try discriminate T2;
      try (unfold update_plane_issue, try_except; rewrite E; cbn [as_dict];
           rewrite bind_lift_ok, T1, G, T2; cbn [negb];
           unfold dict_getitem; rewrite Hiid, bind_lift_ok;
           no_request_error).
    destruct (match_uuid u) eqn:M.
    + rewrite (update_direct env params_json d _ u E Hpid T1 Hiid) by exact M.
      destruct (when_down_try_except err _ log
                  (update_plane_issue_send_down env d err))
        as (s & extra & Es & Herr & Hx).
      exists s, extra. split; [exact Es |]. split; [exact Herr |].
      destruct Hx as [-> | [Hreq Hs]]; [now left | right; auto].
    + destruct (get_plane_issue_id_unreachable env
                  (json_dumps (JObject [("issue_code", JString u)]))
                  err log) as (s & extra & Es & Herr & Hx).
      rewrite (update_unresolved env params_json d _ u E Hpid T1 Hiid
                 (unreachable err) log s _ T2 M Es Herr).
      eexists; exists extra. split; [reflexivity |].
      split; [reflexivity |].
      destruct Hx as [-> | [Hreq ->]]; [now left | right].
      split; [exact Hreq |]. right. now exists (JString u).
  - apply get_plane_issue_id_unreachable.
Qed.

(** ** What each operation makes of the reply *)

Lemma create_plane_issue_call env params_json d srv log :
  load_params params_json = Some (JObject d) ->
  supplied d "project_id" = true -> supplied d "name" = true ->
  create_plane_issue env params_json srv log
  = try_except
      (let! response :=
         requests_call (post_issue env (get_or d "project_id" JNull)
                          (add_optional_fields d (issue_base d))) in
       if status_code response =? 201 then
         let! result := lift (response_json response) in
         let! rname := lift (py_getitem result "name") in
         let! seq := lift (py_getitem result "sequence_id") in
         ret ("Issue created: " ++ py_str rname ++ " (#" ++ py_str seq ++ ")")
       else
         ret ("Error: API request failed with status code "
              ++ string_of_Z (status_code response))) srv log.
Proof.
  unfold supplied. intros Hp Hpid Hname.
  unfold create_plane_issue, try_except.
  rewrite Hp. cbn [as_dict]. rewrite bind_lift_ok, Hpid, Hname.
  cbn [negb]. cbv zeta. unfold dict_getitem.
  rewrite (truthy_get_or _ _ Hname), (truthy_get_or _ _ Hpid), !bind_lift_ok.
  reflexivity.
Qed.

Lemma py_getitem_field v key x :
  field v key = Some x -> py_getitem v key = Ok x.
Proof.
  destruct v; try discriminate. cbn. unfold dict_getitem. now intros ->.
Qed.

(** X5.  create_plane_issue with a project_id and a name: the one POST
    decides the result.  A call that raises is a network error; any status
    other than 201, also 200, is reported with its number; status 201 with a
    JSON object that has a name and a sequence_id gives the success text; and
    status 201 with a body that is not JSON is reported as a network error
    too. *)
Theorem create_plane_issue_outcome (env : environ) (params_json : string)
        (d : list (string * json)) (srv : server) (log : list request) :
  load_params params_json = Some (JObject d) ->
  supplied d "project_id" = true -> supplied d "name" = true ->
  let req := post_issue env (get_or d "project_id" JNull)
               (add_optional_fields d (issue_base d)) in
  let result_is s :=
    create_plane_issue env params_json srv log
    = (Ok s, (log ++ [req])%list) in
  (forall err, srv log req = Unreachable err ->
     result_is ("Error: Network error - " ++ err))
  /\ (forall r, srv log req = Replied r -> status_code r <> 201 ->
        result_is ("Error: API request failed with status code "
                   ++ string_of_Z (status_code r)))
  /\ (forall r result name seq,
        srv log req = Replied r -> status_code r = 201 ->
        content r = Json result ->
        field result "name" = Some name ->
        field result "sequence_id" = Some seq ->
        result_is ("Issue created: " ++ py_str name
                   ++ " (#" ++ py_str seq ++ ")"))
  /\ (forall r err,
        srv log req = Replied r -> status_code r = 201 ->
        content r = NotJson err ->
        result_is ("Error: Network error - " ++ err)).
Proof.
  intros Hp Hpid Hname req result_is. subst result_is. cbv beta.
  rewrite (create_plane_issue_call env params_json d srv log Hp Hpid Hname).
  fold req. unfold try_except. repeat split.
  - intros err E. now rewrite (bind_unreachable _ _ _ _ _ E).
  - intros r E Hst. rewrite (bind_replied _ _ _ _ _ E).
    apply Z.eqb_neq in Hst. now rewrite Hst.
  - intros r result name seq E Hst Hc Hn Hs.
    rewrite (bind_replied _ _ _ _ _ E), Hst. cbn [Z.eqb Pos.eqb].
    unfold response_json. rewrite Hc, bind_lift_ok.
    now rewrite (py_getitem_field _ _ _ Hn), bind_lift_ok,
      (py_getitem_field _ _ _ Hs), bind_lift_ok.
  - intros r err E Hst Hc.
    rewrite (bind_replied _ _ _ _ _ E), Hst. cbn [Z.eqb Pos.eqb].
    unfold response_json. now rewrite Hc.
Qed.

Lemma create_plane_issue_outcome_witness :
  create_plane_issue Sample.env
    (q "{'project_id': 'p-1', 'name': 'Bug Fix', 'priority': 'high'}")
    (fun _ _ => Replied (Response 200 "OK" (Json (JObject [])))) []
  = (Ok "Error: API request failed with status code 200",
     [post_issue Sample.env (JString "p-1")
        [("name", JString "Bug Fix"); ("description", JString "");
         ("description_html", JString "<p></p>");
         ("priority", JString "high")]]).
Proof.
  apply (proj1 (proj2
           (create_plane_issue_outcome Sample.env
              (q "{'project_id': 'p-1', 'name': 'Bug Fix', 'priority': 'high'}")
              [("project_id", JString "p-1"); ("name", JString "Bug Fix");
               ("priority", JString "high")]
              (fun _ _ => Replied (Response 200 "OK" (Json (JObject [])))) []
              eq_refl eq_refl eq_refl))
           (Response 200 "OK" (Json (JObject []))));
    [reflexivity | discriminate].
Defined.




Lemma delete_plane_project_call env params_json d srv log :
  load_params params_json = Some (JObject d) ->
  supplied d "project_id" = true -> supplied d "confirm" = true ->
  delete_plane_project env params_json srv log
  = try_except
      (let! project_response :=
         requests_call (get_project env (get_or d "project_id" JNull)) in
       if negb (status_code project_response =? 200)
       then ret ("Error: Project not found or access denied (Status code: "
                 ++ string_of_Z (status_code project_response) ++ ")") else
       let! project := lift (response_json project_response) in
       let! project_name :=
         lift (py_get project "name" (JString "Unknown Project")) in
       let! project_identifier :=
         lift (py_get project "identifier" (JString "Unknown")) in
       let! response :=
         requests_call (delete_project env (get_or d "project_id" JNull)) in
       if status_code response =? 204 then
         ret ("Project deleted successfully: " ++ py_str project_name
              ++ " (" ++ py_str project_identifier ++ ")")
       else if status_code response =? 404 then
         ret "Error: Project not found"
       else if status_code response =? 403 then
         ret "Error: Permission denied to delete project"
       else
         ret ("Error: Failed to delete project (Status code: "
              ++ string_of_Z (status_code response) ++ ")")) srv log.
Proof.
  unfold supplied. intros Hp Hpid Hc.
  unfold delete_plane_project, try_except.
  rewrite Hp. cbn [as_dict]. rewrite bind_lift_ok, Hpid, Hc.
  cbn [negb]. cbv zeta. unfold dict_getitem.
  rewrite (truthy_get_or _ _ Hpid), bind_lift_ok.
  reflexivity.
Qed.

Lemma py_get_object v key default :
  is_object v = true -> py_get v key default = Ok (field_or v key default).
Proof. destruct v; try discriminate. reflexivity. Qed.

(** X7.  delete_plane_project, confirmed, once the pre-flight GET has
    shown the project (status 200, a JSON object): the DELETE goes to the
    URL of the GET and decides the result.  Status 204 gives the success text
    with the name and the identifier read before the deletion ("Unknown
    Project" and "Unknown" when the project has none); 404 and 403 have their
    own errors; any other status, also 200, is reported with its number; a
    call that raises is a network error. *)
Theorem delete_plane_project_outcome (env : environ) (params_json : string)
        (d : list (string * json)) (srv : server) (log : list request)
        (reason1 : string) (project : json) :
  load_params params_json = Some (JObject d) ->
  supplied d "project_id" = true -> supplied d "confirm" = true ->
  let pid := get_or d "project_id" JNull in
  srv log (get_project env pid)
  = Replied (Response 200 reason1 (Json project)) ->
  is_object project = true ->
  let log1 := (log ++ [get_project env pid])%list in
  let result_is s :=
    delete_plane_project env params_json srv log
    = (Ok s, (log ++ [get_project env pid; delete_project env pid])%list) in
  url (delete_project env pid) = url (get_project env pid)
  /\ (forall err, srv log1 (delete_project env pid) = Unreachable err ->
        result_is ("Error: Network error - " ++ err))
  /\ (forall r, srv log1 (delete_project env pid) = Replied r ->
        result_is
          (if status_code r =? 204 then
             "Project deleted successfully: "
             ++ py_str (field_or project "name" (JString "Unknown Project"))
             ++ " ("
             ++ py_str (field_or project "identifier" (JString "Unknown"))
             ++ ")"
           else if status_code r =? 404 then "Error: Project not found"
           else if status_code r =? 403
           then "Error: Permission denied to delete project"
           else "Error: Failed to delete project (Status code: "
                ++ string_of_Z (status_code r) ++ ")")).
Proof.
  intros Hp Hpid Hc pid Hsrv Hobj log1 result_is. subst result_is log1.
  cbv beta.
  rewrite (delete_plane_project_call env params_json d srv log Hp Hpid Hc).
  fold pid. unfold try_except.
  rewrite (bind_replied _ _ _ _ _ Hsrv).
  cbn [status_code content response_json negb Z.eqb Pos.eqb].
  rewrite bind_lift_ok, !(py_get_object _ _ _ Hobj), !bind_lift_ok.
  split; [reflexivity |]. split.
  - intros err E. rewrite (bind_unreachable _ _ _ _ _ E).
    now rewrite <- app_assoc.
  - intros r E. rewrite (bind_replied _ _ _ _ _ E), <- app_assoc.
    destruct (status_code r =? 204); [reflexivity |].
    destruct (status_code r =? 404); [reflexivity |].
    destruct (status_code r =? 403); reflexivity.
Qed.

Lemma delete_plane_project_outcome_witness :
  delete_plane_project Sample.env (q "{'project_id': 'p-1', 'confirm': true}")
    (fun _ r =>
       match verb r with
       | GET => Sample.ok (JObject [("identifier", JString "CLT")])
       | _ => Replied (Response 204 "No Content" (NotJson "Expecting value"))
       end) []
  = (Ok "Project deleted successfully: Unknown Project (CLT)",
     [get_project Sample.env (JString "p-1");
      delete_project Sample.env (JString "p-1")]).
Proof.
  apply (proj2 (proj2
           (delete_plane_project_outcome Sample.env
              (q "{'project_id': 'p-1', 'confirm': true}")
              [("project_id", JString "p-1"); ("confirm", JBool true)]
              _ [] "OK" (JObject [("identifier", JString "CLT")])
              eq_refl eq_refl eq_refl eq_refl eq_refl))
           (Response 204 "No Content" (NotJson "Expecting value")) eq_refl).
Defined.

(** X8.  list_plane_projects: its one GET decides the result.  A call that
    raises is a network error; a status other than 200 is reported with its
    number; status 200 with a JSON object lists, after the line "Projects:",
    one line "name (ID: id)" for each entry of "results" in the order the
    server gave them, and nothing when the object has no "results"; status
    200 with a body that is not an object, such as a bare array of projects,
    is reported as an unexpected error. *)
Theorem list_plane_projects_outcome (env : environ) (params_json : string)
        (srv : server) (log : list request) :
  let req := list_projects_request env in
  let result_is s :=
    list_plane_projects env params_json srv log
    = (Ok s, (log ++ [req])%list) in
  (forall err, srv log req = Unreachable err ->
     result_is ("Error: Network error - " ++ err))
  /\ (forall r, srv log req = Replied r -> status_code r <> 200 ->
        result_is ("Error: API request failed with status code "
                   ++ string_of_Z (status_code r)))
  /\ (forall r page projects,
        srv log req = Replied r -> status_code r = 200 ->
        content r = Json (JObject page) ->
        get_or page "results" (JArray []) = JArray projects ->
        forallb (fun p => has_field p "name" && has_field p "id") projects
        = true ->
        result_is ("Projects:" ++ str1 newline
                   ++ String.concat (str1 newline)
                        (map project_line projects)))
  /\ (forall r v,
        srv log req = Replied r -> status_code r = 200 ->
        content r = Json v -> is_object v = false ->
        result_is (no_get_attribute v)).
Proof.
  intros req result_is. subst result_is. cbv beta.
  unfold list_plane_projects, try_except. cbv zeta.
  unfold requests_get. fold (list_projects_request env). fold req.
  repeat match goal with |- _ /\ _ => split end.
  - intros err E. now rewrite (bind_unreachable _ _ _ _ _ E).
  - intros r E Hst. rewrite (bind_replied _ _ _ _ _ E).
    apply Z.eqb_neq in Hst. now rewrite Hst.
  - intros r page projects E Hst Hc Hres Hall.
    rewrite (bind_replied _ _ _ _ _ E), Hst. cbn [Z.eqb Pos.eqb].
    unfold response_json. rewrite Hc, bind_lift_ok.
    unfold py_get. cbn [as_dict outcome_bind]. rewrite bind_lift_ok.
    fold (get_or page "results" (JArray [])). rewrite Hres.
    cbn [py_iter]. rewrite bind_lift_ok.
    rewrite (map_raising_pure format_project project_line projects);
      [now rewrite bind_lift_ok |].
    intros p Hin. rewrite forallb_forall in Hall.
    specialize (Hall p Hin). apply andb_true_iff in Hall as [Hn Hi].
    unfold has_field in Hn, Hi. unfold format_project, project_line.
    destruct (field p "name") as [n |] eqn:Fn; [| discriminate].
    destruct (field p "id") as [i |] eqn:Fi; [| discriminate].
    now rewrite (py_getitem_field _ _ _ Fn), (py_getitem_field _ _ _ Fi).
  - intros r v E Hst Hc Hv.
    rewrite (bind_replied _ _ _ _ _ E), Hst. cbn [Z.eqb Pos.eqb].
    unfold response_json. rewrite Hc, bind_lift_ok.
    destruct v; try discriminate; reflexivity.
Qed.

Lemma list_plane_projects_outcome_witness :
  list_plane_projects Sample.env "{}" Sample.array_server []
  = (Ok "Error: Unexpected error - 'list' object has no attribute 'get'",
     [list_projects_request Sample.env])
  /\ list_plane_projects Sample.env "{}"
       (fun _ _ => Sample.ok (JObject [("count", JInt 0)])) []
     = (Ok ("Projects:" ++ str1 newline), [list_projects_request Sample.env]).
Proof.
  split.
  - apply (proj2 (proj2 (proj2
             (list_plane_projects_outcome Sample.env "{}"
                Sample.array_server [])))
             (Response 200 "OK" (Json (JArray Sample.issues)))
             (JArray Sample.issues)); reflexivity.
  - apply (proj1 (proj2 (proj2
             (list_plane_projects_outcome Sample.env "{}"
                (fun _ _ => Sample.ok (JObject [("count", JInt 0)])) [])))
             (Response 200 "OK" (Json (JObject [("count", JInt 0)])))
             [("count", JInt 0)] []); reflexivity.
Defined.
